(** * NCBI GenBank data retriever: a shallow embedding of [s26827_2025-2.py]

    The script resolves a taxonomic identifier, searches the nucleotide
    database with server-side history, fetches one window of records, keeps
    the records whose sequence length lies in a range and writes an archive,
    a CSV table and a chart.

    Python values are modelled as follows.
    - [int] is [Z]; [len] of a sequence is the [Z] image of a [nat].
    - an exception is a value of [exn]; a computation either returns or
      raises, and keeps the state it reached in both cases.
    - an attribute that may be absent from an object ([hasattr]) is an
      [option].
    - output (console lines, remote calls, files, plotting calls) is a
      chronological list of [event]s.
    - the remote service and the two library functions whose exact behaviour
      is not part of the script ([int] on a string, the row order chosen by
      [DataFrame.sort_values]) are explicit arguments. *)

From Stdlib Require Import ZArith Lia Ascii.
From stdpp Require Import base list strings pretty.

Local Open Scope Z_scope.

(** ** Exceptions and results *)

(** [PyExc cls msg]: an instance of the exception class [cls] whose [str()]
    is [msg].  Only subclasses of [Exception] are modelled, which is what
    [except Exception] catches. *)
Inductive exn : Type :=
  | PyExc (cls : string) (msg : string).

Definition exn_class (e : exn) : string := let 'PyExc c _ := e in c.

(** [str(e)], as interpolated by an f-string. *)
Definition str (e : exn) : string := let 'PyExc _ m := e in m.

Inductive py_result (A : Type) : Type :=
  | Return (a : A)
  | Raise (e : exn).
Arguments Return {A} a.
Arguments Raise {A} e.

(** ** Data *)

(** The part of a Biopython [SeqRecord] the script reads: [rec.id],
    [rec.seq] (its letters) and [rec.description]. *)
Record SeqRecord : Type := mkSeqRecord {
  rec_id : string;
  rec_seq : string;
  rec_description : string
}.

(** Python's [len] on a sequence. *)
Definition len (s : string) : Z := Z.of_nat (String.length s).

(** One entry of the parsed taxonomy document; the key [ScientificName] may
    be missing from the dictionary. *)
Record TaxonEntry : Type := mkTaxonEntry {
  ScientificName : option string
}.

(** The parsed [esearch] document, a dictionary of strings; each of the
    three keys the script subscripts may be missing. *)
Record ESearchResult : Type := mkESearchResult {
  Count : option string;
  WebEnv : option string;
  QueryKey : option string
}.

(** The remote service.  The [n]-th remote call of a run (counted from 0) is
    answered by the reply function applied to [n] and the call's arguments,
    so the same request may be answered differently at different times.
    - [efetch_taxonomy n id]: [Entrez.efetch(db="taxonomy", id=id,
      retmode="xml")] followed by [Entrez.read].
    - [esearch_nucleotide n term]: [Entrez.esearch(db="nucleotide",
      term=term, usehistory="y")] followed by [Entrez.read].
    - [efetch_nucleotide n retstart retmax webenv query_key]:
      [Entrez.efetch(db="nucleotide", rettype="gb", retmode="text", ...)]
      followed by [handle.read()], [handle.close()] and
      [list(SeqIO.parse(..., "genbank"))].
    A transport or parse failure anywhere in such a group is one [Raise]. *)
Record Entrez : Type := mkEntrez {
  efetch_taxonomy : nat -> string -> py_result (list TaxonEntry);
  esearch_nucleotide : nat -> string -> py_result ESearchResult;
  efetch_nucleotide :
    nat -> Z -> Z -> string -> string -> py_result (list SeqRecord)
}.

(** One row of the report: the dictionary appended to [csv_data]. *)
Record ReportRow : Type := mkReportRow {
  Accession : string;
  Length : Z;
  Description : string
}.

(** A pandas data frame built from a list of such dictionaries. *)
Record DataFrame : Type := mkDataFrame {
  columns : list string;
  rows : list ReportRow
}.

(** Library behaviour the script relies on without fixing it.
    - [py_int s]: Python's [int(s)] on a string, which raises [ValueError]
      on text that is not an integer literal.
    - [sort_desc rs]: the order in which [sort_values(by="Length",
      ascending=False)] returns the rows (pandas' default sort is not
      stable, so the order of ties is left open). *)
Record Lib : Type := mkLib {
  py_int : string -> py_result Z;
  sort_desc : list ReportRow -> list ReportRow
}.

(** What [sort_values] guarantees about the rows. *)
Definition sort_is_permutation (L : Lib) : Prop :=
  forall rs, Permutation (sort_desc L rs) rs.

(** ** Observable events *)

(** An event records a statement of the script that was executed, with its
    arguments.  The file and plotting statements ([SeqIO.write] under
    [open], [to_csv], the [plt] calls) are taken to return once executed: an
    error of the file system or of a writer (a path that cannot be opened,
    a record the GenBank writer refuses) is not modelled, so a run is
    followed as in a working directory where every write succeeds. *)
Inductive event : Type :=
  | Input (prompt : string)
  | Print (line : string)
  | Entrez_efetch_taxonomy (id : string)
  | Entrez_esearch (term : string)
  | Entrez_efetch_nucleotide (retstart retmax : Z) (webenv query_key : string)
  | SeqIO_write (file : string) (records : list SeqRecord)
  | to_csv (file : string) (df : DataFrame)
  | plt_figure
  | plt_plot (xs : list string) (ys : list Z)
  | plt_xticks
  | plt_xlabel (s : string)
  | plt_ylabel (s : string)
  | plt_title (s : string)
  | plt_tight_layout
  | plt_savefig (file : string)
  | plt_close.

(** A remote call of any kind. *)
Definition is_remote_call (e : event) : bool :=
  match e with
  | Entrez_efetch_taxonomy _ | Entrez_esearch _
  | Entrez_efetch_nucleotide _ _ _ _ => true
  | _ => false
  end.

(** A batch fetch from the nucleotide database. *)
Definition is_fetch_call (e : event) : bool :=
  match e with
  | Entrez_efetch_nucleotide _ _ _ _ => true
  | _ => false
  end.

(** A taxonomy lookup or a search: the calls [search_taxid] issues. *)
Definition is_search_call (e : event) : bool :=
  match e with
  | Entrez_efetch_taxonomy _ | Entrez_esearch _ => true
  | _ => false
  end.

(** The write of one of the three output files. *)
Definition is_artifact (e : event) : bool :=
  match e with
  | SeqIO_write _ _ | to_csv _ _ | plt_savefig _ => true
  | _ => false
  end.

(** Any step of chart generation. *)
Definition is_chart_event (e : event) : bool :=
  match e with
  | plt_figure | plt_plot _ _ | plt_xticks | plt_xlabel _ | plt_ylabel _
  | plt_title _ | plt_tight_layout | plt_savefig _ | plt_close => true
  | _ => false
  end.

Definition fetch_calls (t : list event) : list event :=
  List.filter is_fetch_call t.
Definition search_calls (t : list event) : list event :=
  List.filter is_search_call t.
Definition remote_calls (t : list event) : list event :=
  List.filter is_remote_call t.
Definition artifacts (t : list event) : list event :=
  List.filter is_artifact t.
Definition chart_events (t : list event) : list event :=
  List.filter is_chart_event t.

(** The number of records an event hands to an output: records written to
    the archive, rows of the CSV table, points of the plot. *)
Definition payload_size (e : event) : nat :=
  match e with
  | SeqIO_write _ rs => length rs
  | to_csv _ df => length (rows df)
  | plt_plot xs ys => Nat.max (length xs) (length ys)
  | _ => 0%nat
  end.

(** ** Program state *)

(** The attributes of the one [NCBIRetriever] instance.  [email] and
    [api_key] are set by [__init__]; [webenv], [query_key] and [count] only
    by a successful [search_taxid]. *)
Record NCBIRetriever : Type := mkNCBIRetriever {
  email : option string;
  api_key : option string;
  webenv : option string;
  query_key : option string;
  count : option Z
}.

(** The module-level configuration of [Bio.Entrez]. *)
Record EntrezConfig : Type := mkEntrezConfig {
  Entrez_email : option string;
  Entrez_api_key : option string;
  Entrez_tool : option string
}.

Record State : Type := mkState {
  self : NCBIRetriever;
  config : EntrezConfig;
  calls : nat;
  trace : list event
}.

Definition no_attributes : NCBIRetriever :=
  mkNCBIRetriever None None None None None.

Definition initial_state : State :=
  mkState no_attributes (mkEntrezConfig None None None) 0 [].

(** ** The monad of Python statements: state, output and exceptions *)

Definition M (A : Type) : Type := State -> py_result A * State.

Definition ret {A} (a : A) : M A := fun s => (Return a, s).

Definition bind {A B} (m : M A) (k : A -> M B) : M B :=
  fun s =>
    match m s with
    | (Return a, s') => k a s'
    | (Raise e, s') => (Raise e, s')
    end.

Definition raise {A} (e : exn) : M A := fun s => (Raise e, s).

(** [try: body except Exception as e: handler e].  The handler starts from
    the state in which the body raised. *)
Definition try_except {A} (body : M A) (handler : exn -> M A) : M A :=
  fun s =>
    match body s with
    | (Return a, s') => (Return a, s')
    | (Raise e, s') => handler e s'
    end.

Notation "x <- m ;; k" := (bind m (fun x => k))
  (at level 100, m at next level, right associativity).
Notation "m ;;; k" := (bind m (fun _ => k))
  (at level 100, right associativity).

Definition lift {A} (r : py_result A) : M A := fun s => (r, s).

Definition emit (e : event) : M unit :=
  fun s => (Return tt, mkState (self s) (config s) (calls s) (trace s ++ [e])).

Definition print (line : string) : M unit := emit (Print line).

(** A remote call: logged, answered by the service according to the number
    of calls made so far, and counted. *)
Definition remote {A} (e : event) (reply : nat -> py_result A) : M A :=
  fun s =>
    (reply (calls s),
     mkState (self s) (config s) (S (calls s)) (trace s ++ [e])).

Definition set_self (f : NCBIRetriever -> NCBIRetriever) : M unit :=
  fun s => (Return tt, mkState (f (self s)) (config s) (calls s) (trace s)).

Definition get_self : M NCBIRetriever := fun s => (Return (self s), s).

Definition set_config (c : EntrezConfig) : M unit :=
  fun s => (Return tt, mkState (self s) c (calls s) (trace s)).

(** [xs[0]]. *)
Definition getitem0 {A} (xs : list A) : M A :=
  match xs with
  | x :: _ => ret x
  | [] => raise (PyExc "IndexError" "list index out of range")
  end.

(** [d[key]] for a dictionary entry that may be missing. *)
Definition getkey {A} (key : string) (entry : option A) : M A :=
  match entry with
  | Some v => ret v
  | None => raise (PyExc "KeyError" ("'" +:+ key +:+ "'"))
  end.

(** ** The length filter (lines 99-102)

    [[rec for rec in sample_records
      if min_length <= len(rec.seq) <= max_length]] *)

Definition in_range (min_length max_length : Z) (rec : SeqRecord) : bool :=
  (min_length <=? len (rec_seq rec)) && (len (rec_seq rec) <=? max_length).

Fixpoint length_filter (min_length max_length : Z)
    (sample_records : list SeqRecord) : list SeqRecord :=
  match sample_records with
  | [] => []
  | rec :: rest =>
      if in_range min_length max_length rec
      then rec :: length_filter min_length max_length rest
      else length_filter min_length max_length rest
  end.

(** ** [NCBIRetriever] *)

(** [__init__] (lines 17-23). *)
Definition NCBIRetriever_init (email_ api_key_ : string) : M unit :=
  set_self (fun _ =>
    mkNCBIRetriever (Some email_) (Some api_key_) None None None) ;;;
  set_config
    (mkEntrezConfig (Some email_) (Some api_key_) (Some "BioScriptEx10")).

Definition set_webenv (w : string) : M unit :=
  set_self (fun r =>
    mkNCBIRetriever (email r) (api_key r) (Some w) (query_key r) (count r)).

Definition set_query_key (q : string) : M unit :=
  set_self (fun r =>
    mkNCBIRetriever (email r) (api_key r) (webenv r) (Some q) (count r)).

Definition set_count (c : Z) : M unit :=
  set_self (fun r =>
    mkNCBIRetriever (email r) (api_key r) (webenv r) (query_key r) (Some c)).

(** [search_taxid] (lines 25-52).  The result is [None] or the count. *)
Definition search_taxid (L : Lib) (W : Entrez) (taxid : string)
    : M (option Z) :=
  print ("Searching for records with taxID: " +:+ taxid) ;;;
  try_except
    (records <- remote (Entrez_efetch_taxonomy taxid)
                  (fun n => efetch_taxonomy W n taxid) ;;
     entry <- getitem0 records ;;
     organism_name <- getkey "ScientificName" (ScientificName entry) ;;
     print ("Organism: " +:+ organism_name +:+ " (TaxID: " +:+ taxid +:+ ")") ;;;
     let search_term := "txid" +:+ taxid +:+ "[Organism]" in
     search_results <- remote (Entrez_esearch search_term)
                         (fun n => esearch_nucleotide W n search_term) ;;
     count_text <- getkey "Count" (Count search_results) ;;
     count_ <- lift (py_int L count_text) ;;
     if count_ =? 0 then
       print ("No records found for " +:+ organism_name) ;;;
       ret None
     else
       print ("Found " +:+ pretty count_ +:+ " records") ;;;
       w <- getkey "WebEnv" (WebEnv search_results) ;;
       set_webenv w ;;;
       q <- getkey "QueryKey" (QueryKey search_results) ;;
       set_query_key q ;;;
       set_count count_ ;;;
       ret (Some count_))
    (fun e =>
       print ("Error searching TaxID " +:+ taxid +:+ ": " +:+ str e) ;;;
       ret None).

(** [fetch_records] (lines 54-79). *)
Definition fetch_records (W : Entrez) (start max_records : Z)
    : M (list SeqRecord) :=
  r <- get_self ;;
  match webenv r, query_key r with
  | Some w, Some q =>
      try_except
        (let batch_size := Z.min max_records 500 in
         parsed_records <-
           remote (Entrez_efetch_nucleotide start batch_size w q)
             (fun n => efetch_nucleotide W n start batch_size w q) ;;
         ret parsed_records)
        (fun e =>
           print ("Error fetching records: " +:+ str e) ;;;
           ret [])
  | _, _ =>
      print "No search results to fetch. Run search_taxid() first." ;;;
      ret []
  end.

(** ** [main] (lines 81-140) *)

(** The five lines typed at the prompts. *)
Record Inputs : Type := mkInputs {
  in_email : string;
  in_api_key : string;
  in_taxid : string;
  in_min_length : string;
  in_max_length : string
}.

(** Python's truth value of the result of [search_taxid]. *)
Definition truthy (count_ : option Z) : bool :=
  match count_ with
  | None => false
  | Some c => negb (c =? 0)
  end.

Definition report_row (record : SeqRecord) : ReportRow :=
  mkReportRow (rec_id record) (len (rec_seq record)) (rec_description record).

(** [pd.DataFrame(csv_data)]: the columns are the keys of the dictionaries,
    so a frame built from the empty list has no column at all. *)
Definition pd_DataFrame (csv_data : list ReportRow) : DataFrame :=
  match csv_data with
  | [] => mkDataFrame [] []
  | _ => mkDataFrame ["Accession"; "Length"; "Description"] csv_data
  end.

(** [df.sort_values(by="Length", ascending=False)]: a [KeyError] when the
    frame has no such column. *)
Definition sort_values_Length (L : Lib) (df : DataFrame)
    : py_result DataFrame :=
  if bool_decide ("Length" ∈ columns df)
  then Return (mkDataFrame (columns df) (sort_desc L (rows df)))
  else Raise (PyExc "KeyError" "'Length'").

Definition newline : string := String "010"%char EmptyString.

(** The statements of [main] in their order.  The two [int()] conversions,
    [search_taxid], [fetch_records] and [sort_values] return or raise as
    their definitions say; the writes and the plotting calls (lines 106-108,
    122 and 128-138) are events that return, see [event]. *)
Definition main (L : Lib) (W : Entrez) (inp : Inputs) : M unit :=
  emit (Input "Enter your email address for NCBI: ") ;;;
  let email_ := in_email inp in
  emit (Input "Enter your NCBI API key: ") ;;;
  let api_key_ := in_api_key inp in
  NCBIRetriever_init email_ api_key_ ;;;
  emit (Input "Enter taxonomic ID (taxid) of the organism: ") ;;;
  let taxid := in_taxid inp in
  emit (Input "Enter minimum sequence length: ") ;;;
  min_length <- lift (py_int L (in_min_length inp)) ;;
  emit (Input "Enter maximum sequence length: ") ;;;
  max_length <- lift (py_int L (in_max_length inp)) ;;
  count_ <- search_taxid L W taxid ;;
  if negb (truthy count_) then
    print "No records found. Exiting."
  else
    print (newline +:+ "Fetching sample records...") ;;;
    sample_records <- fetch_records W 0 20 ;;
    let filtered_records := length_filter min_length max_length sample_records in
    print ("Filtered to " +:+ pretty (length filtered_records)
           +:+ " records within length range.") ;;;
    let output_file := "taxid_" +:+ taxid +:+ "_sample.gb" in
    emit (SeqIO_write output_file filtered_records) ;;;
    print ("Saved filtered sample records to " +:+ output_file) ;;;
    let csv_data := map report_row filtered_records in
    let df := pd_DataFrame csv_data in
    let csv_file := "taxid_" +:+ taxid +:+ "_report.csv" in
    emit (to_csv csv_file df) ;;;
    print ("Saved CSV report to " +:+ csv_file) ;;;
    df_sorted <- lift (sort_values_Length L df) ;;
    emit plt_figure ;;;
    emit (plt_plot (map Accession (rows df_sorted))
                   (map Length (rows df_sorted))) ;;;
    emit plt_xticks ;;;
    emit (plt_xlabel "Accession Number") ;;;
    emit (plt_ylabel "Sequence Length") ;;;
    emit (plt_title ("Sequence Lengths for TaxID " +:+ taxid)) ;;;
    emit plt_tight_layout ;;;
    let chart_file := "taxid_" +:+ taxid +:+ "_lengths.png" in
    emit (plt_savefig chart_file) ;;;
    emit plt_close ;;;
    print ("Saved chart to " +:+ chart_file).

(** The outcome and the output of a whole run. *)
Definition run_main (L : Lib) (W : Entrez) (inp : Inputs)
    : py_result unit * list event :=
  let '(r, s) := main L W inp initial_state in (r, trace s).

(** ** Concrete instances, used to run the model on examples *)

Definition is_digit (c : Ascii.ascii) : bool :=
  (48 <=? Z.of_N (Ascii.N_of_ascii c)) && (Z.of_N (Ascii.N_of_ascii c) <=? 57).

Fixpoint digits_value (acc : Z) (s : string) : option Z :=
  match s with
  | EmptyString => Some acc
  | String c rest =>
      if is_digit c
      then digits_value (10 * acc + (Z.of_N (Ascii.N_of_ascii c) - 48)) rest
      else None
  end.

(** [int] on ASCII decimal literals with an optional sign, for the examples.
    It is not the whole of Python's [int()]: blanks around the digits,
    underscores between them and digits outside ASCII, all of which [int()]
    accepts, are answered here with [ValueError], and the message quotes the
    text as typed where Python shows its [repr].  The general statements
    take [py_int] from [Lib]. *)
Definition int_decimal (s : string) : py_result Z :=
  let bad :=
    Raise (PyExc "ValueError"
             ("invalid literal for int() with base 10: '" +:+ s +:+ "'")) in
  match s with
  | EmptyString => bad
  | String c rest =>
      if Ascii.eqb c "-"%char then
        match rest, digits_value 0 rest with
        | String _ _, Some v => Return (- v)
        | _, _ => bad
        end
      else if Ascii.eqb c "+"%char then
        match rest, digits_value 0 rest with
        | String _ _, Some v => Return v
        | _, _ => bad
        end
      else
        match digits_value 0 s with
        | Some v => Return v
        | None => bad
        end
  end.

Fixpoint insert_desc (r : ReportRow) (rs : list ReportRow) : list ReportRow :=
  match rs with
  | [] => [r]
  | x :: xs =>
      if Length x <? Length r then r :: x :: xs else x :: insert_desc r xs
  end.

(** Rows by descending [Length], for the examples; rows of equal [Length]
    come out in the reverse of their original order, which need not be the
    order [sort_values] gives them. *)
Definition insertion_sort_desc (rs : list ReportRow) : list ReportRow :=
  foldr insert_desc [] rs.

Definition example_lib : Lib := mkLib int_decimal insertion_sort_desc.

(** A sequence of [n] letters. *)
Fixpoint letters (n : nat) : string :=
  match n with
  | O => EmptyString
  | S k => String "A"%char (letters k)
  end.

Definition rec_short : SeqRecord := mkSeqRecord "AB000001.1" (letters 5) "short".
Definition rec_mid : SeqRecord := mkSeqRecord "AB000002.1" (letters 15) "middle".
Definition rec_long : SeqRecord := mkSeqRecord "AB000003.1" (letters 30) "long".

Definition example_inputs (lo hi : string) : Inputs :=
  mkInputs "user@example.org" "key" "9606" lo hi.

(** A service that answers every request: one taxonomy entry, a search with
    [count_text] hits and both history tokens, and for a fetch the window
    [retstart, retstart + retmax) of the three example records. *)
Definition service_ok (count_text : string) : Entrez :=
  mkEntrez
    (fun _ _ => Return [mkTaxonEntry (Some "Homo sapiens")])
    (fun _ _ => Return (mkESearchResult (Some count_text)
                          (Some "MCID_1") (Some "1")))
    (fun _ retstart retmax _ _ =>
       Return (take (Z.to_nat retmax)
                 (drop (Z.to_nat retstart) [rec_short; rec_mid; rec_long]))).

(** The same service with a transport failure on every batch fetch. *)
Definition service_fetch_down : Entrez :=
  mkEntrez
    (efetch_taxonomy (service_ok "3"))
    (esearch_nucleotide (service_ok "3"))
    (fun _ _ _ _ _ => Raise (PyExc "URLError" "timed out")).


(** ** Notions used in the statements *)

(** The line [fetch_records] prints when a token is absent. *)
Definition no_session_line : string :=
  "No search results to fetch. Run search_taxid() first.".

(** The history contract of the search: a reply that carries [WebEnv] also
    carries [QueryKey] (the service returns both under [usehistory="y"]). *)
Definition history_tokens_paired (W : Entrez) : Prop :=
  forall n term sr w,
    esearch_nucleotide W n term = Return sr ->
    WebEnv sr = Some w -> exists q, QueryKey sr = Some q.

(** The state in which the example search has succeeded once. *)
Definition state_after_search : State :=
  snd (search_taxid example_lib (service_ok "3") "9606" initial_state).

(** The service returns no more records than [retmax] asks for. *)
Definition retmax_honoured (W : Entrez) : Prop :=
  forall n retstart retmax w q rs,
    efetch_nucleotide W n retstart retmax w q = Return rs ->
    Z.of_nat (length rs) <= Z.max 0 retmax.

(** ** The stages of [main]

    [main] is one function; for reasoning it is cut at the call of
    [search_taxid] (line 91) and at the report line (line 104).  Each stage
    below is the text of [main] from that point on. *)

(** The five prompts, in the order [main] shows them. *)
Definition prompts : list event :=
  [ Input "Enter your email address for NCBI: ";
    Input "Enter your NCBI API key: ";
    Input "Enter taxonomic ID (taxid) of the organism: ";
    Input "Enter minimum sequence length: ";
    Input "Enter maximum sequence length: " ].

(** The state in which [main] calls [search_taxid]: the instance just
    constructed, no remote call made, the five prompts shown. *)
Definition state_before_search (inp : Inputs) : State :=
  mkState
    (mkNCBIRetriever (Some (in_email inp)) (Some (in_api_key inp))
       None None None)
    (mkEntrezConfig (Some (in_email inp)) (Some (in_api_key inp))
       (Some "BioScriptEx10"))
    0 prompts.

(** Lines 104-140: report line, archive, CSV table and chart.  This is the
    text of [main] from the report line on, with the same events. *)
Definition report (L : Lib) (taxid : string)
    (filtered_records : list SeqRecord) : M unit :=
  print ("Filtered to " +:+ pretty (length filtered_records)
         +:+ " records within length range.") ;;;
  let output_file := "taxid_" +:+ taxid +:+ "_sample.gb" in
  emit (SeqIO_write output_file filtered_records) ;;;
  print ("Saved filtered sample records to " +:+ output_file) ;;;
  let csv_data := map report_row filtered_records in
  let df := pd_DataFrame csv_data in
  let csv_file := "taxid_" +:+ taxid +:+ "_report.csv" in
  emit (to_csv csv_file df) ;;;
  print ("Saved CSV report to " +:+ csv_file) ;;;
  df_sorted <- lift (sort_values_Length L df) ;;
  emit plt_figure ;;;
  emit (plt_plot (map Accession (rows df_sorted))
                 (map Length (rows df_sorted))) ;;;
  emit plt_xticks ;;;
  emit (plt_xlabel "Accession Number") ;;;
  emit (plt_ylabel "Sequence Length") ;;;
  emit (plt_title ("Sequence Lengths for TaxID " +:+ taxid)) ;;;
  emit plt_tight_layout ;;;
  let chart_file := "taxid_" +:+ taxid +:+ "_lengths.png" in
  emit (plt_savefig chart_file) ;;;
  emit plt_close ;;;
  print ("Saved chart to " +:+ chart_file).

(** Lines 92-140: what [main] does with the result of [search_taxid]. *)
Definition main_after_search (L : Lib) (W : Entrez) (taxid : string)
    (min_length max_length : Z) (count_ : option Z) : M unit :=
  if negb (truthy count_) then
    print "No records found. Exiting."
  else
    print (newline +:+ "Fetching sample records...") ;;;
    sample_records <- fetch_records W 0 20 ;;
    report L taxid (length_filter min_length max_length sample_records).

(** The output of the report stage on a selection that is not empty. *)
Definition report_events (L : Lib) (taxid : string)
    (filtered_records : list SeqRecord) : list event :=
  let df_sorted := sort_desc L (map report_row filtered_records) in
  [ Print ("Filtered to " +:+ pretty (length filtered_records)
           +:+ " records within length range.");
    SeqIO_write ("taxid_" +:+ taxid +:+ "_sample.gb") filtered_records;
    Print ("Saved filtered sample records to "
           +:+ "taxid_" +:+ taxid +:+ "_sample.gb");
    to_csv ("taxid_" +:+ taxid +:+ "_report.csv")
      (mkDataFrame ["Accession"; "Length"; "Description"]
         (map report_row filtered_records));
    Print ("Saved CSV report to " +:+ "taxid_" +:+ taxid +:+ "_report.csv");
    plt_figure;
    plt_plot (map Accession df_sorted) (map Length df_sorted);
    plt_xticks;
    plt_xlabel "Accession Number";
    plt_ylabel "Sequence Length";
    plt_title ("Sequence Lengths for TaxID " +:+ taxid);
    plt_tight_layout;
    plt_savefig ("taxid_" +:+ taxid +:+ "_lengths.png");
    plt_close;
    Print ("Saved chart to " +:+ "taxid_" +:+ taxid +:+ "_lengths.png") ].

(** The output of the report stage on the empty selection. *)
Definition report_events_empty (taxid : string) : list event :=
  [ Print "Filtered to 0 records within length range.";
    SeqIO_write ("taxid_" +:+ taxid +:+ "_sample.gb") [];
    Print ("Saved filtered sample records to "
           +:+ "taxid_" +:+ taxid +:+ "_sample.gb");
    to_csv ("taxid_" +:+ taxid +:+ "_report.csv") (mkDataFrame [] []);
    Print ("Saved CSV report to " +:+ "taxid_" +:+ taxid +:+ "_report.csv") ].

(** A state with further output. *)
Definition with_output (s : State) (evs : list event) : State :=
  mkState (self s) (config s) (calls s) (trace s ++ evs).

(** The paths of a run of [main], by what was typed, what [search_taxid]
    returned, what [fetch_records] returned and whether a record was kept.
    [main_path L W inp outcome output] relates a run to its outcome and its
    whole output. *)
Inductive main_path (L : Lib) (W : Entrez) (inp : Inputs)
    : py_result unit -> list event -> Prop :=
  | path_bad_minimum e :
      py_int L (in_min_length inp) = Raise e ->
      main_path L W inp (Raise e) (take 4 prompts)
  | path_bad_maximum lo e :
      py_int L (in_min_length inp) = Return lo ->
      py_int L (in_max_length inp) = Raise e ->
      main_path L W inp (Raise e) prompts
  | path_no_records lo hi count_ s1 :
      py_int L (in_min_length inp) = Return lo ->
      py_int L (in_max_length inp) = Return hi ->
      search_taxid L W (in_taxid inp) (state_before_search inp)
        = (Return count_, s1) ->
      truthy count_ = false ->
      main_path L W inp (Return tt)
        (trace s1 ++ [Print "No records found. Exiting."])
  | path_nothing_kept lo hi c s1 sample_records s2 :
      py_int L (in_min_length inp) = Return lo ->
      py_int L (in_max_length inp) = Return hi ->
      search_taxid L W (in_taxid inp) (state_before_search inp)
        = (Return (Some c), s1) ->
      fetch_records W 0 20
        (with_output s1 [Print (newline +:+ "Fetching sample records...")])
        = (Return sample_records, s2) ->
      length_filter lo hi sample_records = [] ->
      main_path L W inp (Raise (PyExc "KeyError" "'Length'"))
        (trace s2 ++ report_events_empty (in_taxid inp))
  | path_reported lo hi c s1 sample_records s2 :
      py_int L (in_min_length inp) = Return lo ->
      py_int L (in_max_length inp) = Return hi ->
      search_taxid L W (in_taxid inp) (state_before_search inp)
        = (Return (Some c), s1) ->
      fetch_records W 0 20
        (with_output s1 [Print (newline +:+ "Fetching sample records...")])
        = (Return sample_records, s2) ->
      length_filter lo hi sample_records <> [] ->
      main_path L W inp (Return tt)
        (trace s2 ++
           report_events L (in_taxid inp) (length_filter lo hi sample_records)).

(** ** The paths of [search_taxid] *)

Definition search_line (taxid : string) : event :=
  Print ("Searching for records with taxID: " +:+ taxid).

Definition search_term (taxid : string) : string :=
  "txid" +:+ taxid +:+ "[Organism]".

Definition organism_line (organism_name taxid : string) : event :=
  Print ("Organism: " +:+ organism_name +:+ " (TaxID: " +:+ taxid +:+ ")").

Definition found_line (c : Z) : event :=
  Print ("Found " +:+ pretty c +:+ " records").

Definition search_error_line (taxid : string) (e : exn) : event :=
  Print ("Error searching TaxID " +:+ taxid +:+ ": " +:+ str e).

(** Lines 28-30 on the reply of the taxonomy lookup:
    [records[0]["ScientificName"]]. *)
Definition organism_name_of (reply : py_result (list TaxonEntry))
    : py_result string :=
  match reply with
  | Raise e => Raise e
  | Return [] => Raise (PyExc "IndexError" "list index out of range")
  | Return (entry :: _) =>
      match ScientificName entry with
      | Some organism_name => Return organism_name
      | None => Raise (PyExc "KeyError" "'ScientificName'")
      end
  end.

(** Lines 34-36 on the reply of the search: [int(search_results["Count"])]. *)
Definition count_of (L : Lib) (reply : py_result ESearchResult)
    : py_result Z :=
  match reply with
  | Raise e => Raise e
  | Return search_results =>
      match Count search_results with
      | Some count_text => py_int L count_text
      | None => Raise (PyExc "KeyError" "'Count'")
      end
  end.

(** [search_path L W taxid s result s']: [search_taxid taxid] started in [s]
    returns [result] and ends in [s'].  One constructor per way through
    lines 26-52. *)
Inductive search_path (L : Lib) (W : Entrez) (taxid : string) (s : State)
    : option Z -> State -> Prop :=
  | search_no_organism e :
      organism_name_of (efetch_taxonomy W (calls s) taxid) = Raise e ->
      search_path L W taxid s None
        (mkState (self s) (config s) (S (calls s))
           (trace s ++
              [ search_line taxid; Entrez_efetch_taxonomy taxid;
                search_error_line taxid e ]))
  | search_no_count organism_name e :
      organism_name_of (efetch_taxonomy W (calls s) taxid)
        = Return organism_name ->
      count_of L (esearch_nucleotide W (S (calls s)) (search_term taxid))
        = Raise e ->
      search_path L W taxid s None
        (mkState (self s) (config s) (S (S (calls s)))
           (trace s ++
              [ search_line taxid; Entrez_efetch_taxonomy taxid;
                organism_line organism_name taxid;
                Entrez_esearch (search_term taxid);
                search_error_line taxid e ]))
  | search_zero organism_name :
      organism_name_of (efetch_taxonomy W (calls s) taxid)
        = Return organism_name ->
      count_of L (esearch_nucleotide W (S (calls s)) (search_term taxid))
        = Return 0 ->
      search_path L W taxid s None
        (mkState (self s) (config s) (S (S (calls s)))
           (trace s ++
              [ search_line taxid; Entrez_efetch_taxonomy taxid;
                organism_line organism_name taxid;
                Entrez_esearch (search_term taxid);
                Print ("No records found for " +:+ organism_name) ]))
  | search_no_WebEnv organism_name search_results c :
      organism_name_of (efetch_taxonomy W (calls s) taxid)
        = Return organism_name ->
      esearch_nucleotide W (S (calls s)) (search_term taxid)
        = Return search_results ->
      count_of L (Return search_results) = Return c ->
      c <> 0 ->
      WebEnv search_results = None ->
      search_path L W taxid s None
        (mkState (self s) (config s) (S (S (calls s)))
           (trace s ++
              [ search_line taxid; Entrez_efetch_taxonomy taxid;
                organism_line organism_name taxid;
                Entrez_esearch (search_term taxid);
                found_line c;
                search_error_line taxid (PyExc "KeyError" "'WebEnv'") ]))
  | search_no_QueryKey organism_name search_results c w :
      organism_name_of (efetch_taxonomy W (calls s) taxid)
        = Return organism_name ->
      esearch_nucleotide W (S (calls s)) (search_term taxid)
        = Return search_results ->
      count_of L (Return search_results) = Return c ->
      c <> 0 ->
      WebEnv search_results = Some w ->
      QueryKey search_results = None ->
      search_path L W taxid s None
        (mkState
           (mkNCBIRetriever (email (self s)) (api_key (self s)) (Some w)
              (query_key (self s)) (count (self s)))
           (config s) (S (S (calls s)))
           (trace s ++
              [ search_line taxid; Entrez_efetch_taxonomy taxid;
                organism_line organism_name taxid;
                Entrez_esearch (search_term taxid);
                found_line c;
                search_error_line taxid (PyExc "KeyError" "'QueryKey'") ]))
  | search_found organism_name search_results c w q :
      organism_name_of (efetch_taxonomy W (calls s) taxid)
        = Return organism_name ->
      esearch_nucleotide W (S (calls s)) (search_term taxid)
        = Return search_results ->
      count_of L (Return search_results) = Return c ->
      c <> 0 ->
      WebEnv search_results = Some w ->
      QueryKey search_results = Some q ->
      search_path L W taxid s (Some c)
        (mkState
           (mkNCBIRetriever (email (self s)) (api_key (self s)) (Some w)
              (Some q) (Some c))
           (config s) (S (S (calls s)))
           (trace s ++
              [ search_line taxid; Entrez_efetch_taxonomy taxid;
                organism_line organism_name taxid;
                Entrez_esearch (search_term taxid);
                found_line c ])).

(** A service that knows no such taxon: the taxonomy document is empty. *)
Definition service_unknown_taxid : Entrez :=
  mkEntrez
    (fun _ _ => Return [])
    (esearch_nucleotide (service_ok "3"))
    (efetch_nucleotide (service_ok "3")).

(** A service whose search reply carries a count and no history tokens. *)
Definition service_without_history : Entrez :=
  mkEntrez
    (efetch_taxonomy (service_ok "3"))
    (fun _ _ => Return (mkESearchResult (Some "3") None None))
    (efetch_nucleotide (service_ok "3")).

(** ** Notions used for runs that differ in the typed lengths only *)



(** Typed lines that agree on the address, the key and the identifier. *)
Definition same_session_inputs (inp inp' : Inputs) : Prop :=
  in_email inp = in_email inp' /\
  in_api_key inp = in_api_key inp' /\
  in_taxid inp = in_taxid inp'.

(** The state of a run when the search, and the fetch if there is one,
    have returned: what lines 91-97 leave, whatever lengths were typed. *)
Definition state_before_report (L : Lib) (W : Entrez) (inp : Inputs) : State :=
  match search_taxid L W (in_taxid inp) (state_before_search inp) with
  | (Return count_, s1) =>
      if truthy count_
      then snd (fetch_records W 0 20
                  (with_output s1
                     [Print (newline +:+ "Fetching sample records...")]))
      else s1
  | (Raise _, s1) => s1
  end.

(** The records a run hands to the filter; none when it does not fetch. *)
Definition sample_of_run (L : Lib) (W : Entrez) (inp : Inputs)
    : list SeqRecord :=
  match search_taxid L W (in_taxid inp) (state_before_search inp) with
  | (Return count_, s1) =>
      if truthy count_
      then match fetch_records W 0 20
                   (with_output s1
                      [Print (newline +:+ "Fetching sample records...")]) with
           | (Return sample_records, _) => sample_records
           | (Raise _, _) => []
           end
      else []
  | (Raise _, _) => []
  end.


(** The call that saves the chart. *)
Definition is_savefig (e : event) : Prop :=
  exists file, e = plt_savefig file.

(** * Properties *)

(** ** The length filter *)

Section LengthFilter.
Variables min_length max_length : Z.

Local Abbreviation keep := (length_filter min_length max_length).
Local Abbreviation ok := (fun r => min_length <= len (rec_seq r) <= max_length).

Lemma in_range_spec (r : SeqRecord) :
  in_range min_length max_length r = true <->
  min_length <= len (rec_seq r) <= max_length.
Proof.
  unfold in_range. rewrite andb_true_iff, !Z.leb_le. tauto.
Qed.

Lemma length_filter_cons (r : SeqRecord) (R : list SeqRecord) :
  keep (r :: R) =
  (if in_range min_length max_length r then [r] else []) ++ keep R.
Proof. simpl. destruct (in_range _ _ r); reflexivity. Qed.

Lemma length_filter_app (R1 R2 : list SeqRecord) :
  keep (R1 ++ R2) = keep R1 ++ keep R2.
Proof.
  induction R1 as [|r R1 IH]; simpl; [reflexivity|].
  destruct (in_range _ _ r); simpl; congruence.
Qed.

Lemma length_filter_elem_of (r : SeqRecord) (R : list SeqRecord) :
  r ∈ keep R <-> r ∈ R /\ min_length <= len (rec_seq r) <= max_length.
Proof.
  induction R as [|x R IH]; simpl.
  - split; [intros H | intros [H _]]; inversion H.
  - destruct (in_range _ _ x) eqn:Hx.
    + rewrite !elem_of_cons, IH. apply in_range_spec in Hx.
      split; [intros [->|[? ?]] | intros [[->|?] ?]]; auto.
    + rewrite elem_of_cons, IH.
      split; [intros [? ?]; auto | intros [[->|?] Hr]; auto].
      apply in_range_spec in Hr. congruence.
Qed.

Lemma length_filter_Forall (R : list SeqRecord) : Forall ok (keep R).
Proof.
  apply Forall_forall. intros r Hr. apply length_filter_elem_of in Hr. tauto.
Qed.

Lemma length_filter_sublist (R : list SeqRecord) : keep R `sublist_of` R.
Proof.
  induction R as [|x R IH]; simpl; [constructor|].
  destruct (in_range _ _ x); by constructor.
Qed.

(** Every in-range selection of the input, taken in input order, survives
    in the output: nothing in range is dropped, duplicates included. *)
Lemma length_filter_greatest (l R : list SeqRecord) :
  l `sublist_of` R -> Forall ok l -> l `sublist_of` keep R.
Proof.
  induction 1 as [|x l R _ IH|x l R _ IH]; intros Hall; simpl.
  - constructor.
  - inversion Hall as [|? ? Hx Hl]; subst.
    apply in_range_spec in Hx. rewrite Hx. constructor. by apply IH.
  - destruct (in_range _ _ x); [apply sublist_cons|]; by apply IH.
Qed.

(** A list of records that are all in range is returned unchanged. *)
Lemma length_filter_fixed (R : list SeqRecord) :
  Forall ok R -> keep R = R.
Proof.
  induction 1 as [|x R Hx _ IH]; simpl; [reflexivity|].
  apply in_range_spec in Hx. rewrite Hx. congruence.
Qed.

(** An inverted range keeps nothing. *)
Lemma length_filter_inverted (R : list SeqRecord) :
  max_length < min_length -> keep R = [].
Proof.
  intros Hinv. induction R as [|x R IH]; simpl; [reflexivity|].
  destruct (in_range _ _ x) eqn:Hx; [|exact IH].
  apply in_range_spec in Hx. lia.
Qed.

(** C1. The length filter returns exactly the records [r] of its input
    with [min_length <= len(r.seq) <= max_length], both bounds included:
    a record is in the output iff it is in the input and in range; the
    output is a subsequence of the input, so relative order is kept; every
    in-range subsequence of the input is a subsequence of the output, so no
    in-range occurrence is lost; and the empty input gives the empty
    output. *)
Theorem C1_length_filter_exact (R : list SeqRecord) :
  (forall r, r ∈ keep R <->
             r ∈ R /\ min_length <= len (rec_seq r) <= max_length) /\
  keep R `sublist_of` R /\
  (forall l, l `sublist_of` R -> Forall ok l -> l `sublist_of` keep R) /\
  keep [] = [].
Proof.
  split; [|split; [|split]].
  - intros r. apply length_filter_elem_of.
  - apply length_filter_sublist.
  - intros l. apply length_filter_greatest.
  - reflexivity.
Qed.

(** C8. The length filter is idempotent: filtering an already filtered
    list with the same bounds returns it unchanged.  The equation holds for
    all bounds, hence in particular under [min_length <= max_length]. *)
Theorem C8_length_filter_idempotent (R : list SeqRecord) :
  keep (keep R) = keep R.
Proof. apply length_filter_fixed, length_filter_Forall. Qed.

End LengthFilter.

(** ** Symbolic execution of the monadic code *)

Ltac unfold_py :=
  unfold search_taxid, fetch_records, NCBIRetriever_init, set_webenv,
    set_query_key, set_count, set_self, set_config, get_self, print, emit,
    remote, lift, getitem0, getkey, try_except, bind, ret, raise.

Ltac case_scrutinee :=
  match goal with
  | H : ?x = _ |- context [match ?x with _ => _ end] => rewrite H
  | |- context [match ?x with _ => _ end] =>
      lazymatch x with
      | context [match _ with _ => _ end] => fail
      | _ => destruct x eqn:?
      end
  end.

(** Call-by-need evaluation of the program text; library functions and the
    fields of the inputs, of the service and of its replies stay folded. *)
Ltac red_py :=
  lazy beta iota zeta delta
    -[pretty String.append Z.min Z.eqb length_filter pd_DataFrame
      sort_values_Length report_row len length map Nat.max payload_size
      py_int sort_desc efetch_taxonomy esearch_nucleotide efetch_nucleotide
      ScientificName Count WebEnv QueryKey rows columns Accession Length
      in_email in_api_key in_taxid in_min_length in_max_length
      newline].

Ltac exec := repeat first [ progress red_py | case_scrutinee ].

(** ** [fetch_records] *)

Lemma fetch_records_no_session (W : Entrez) (start max_records : Z)
    (s : State) :
  webenv (self s) = None \/ query_key (self s) = None ->
  fetch_records W start max_records s =
    (Return [],
     mkState (self s) (config s) (calls s) (trace s ++ [Print no_session_line])).
Proof.
  intros H. unfold_py.
  destruct (webenv (self s)), (query_key (self s)); try reflexivity.
  destruct H; discriminate.
Qed.

Lemma fetch_records_session (W : Entrez) (start max_records : Z)
    (s : State) (w q : string) :
  webenv (self s) = Some w -> query_key (self s) = Some q ->
  fetch_records W start max_records s =
    let batch_size := Z.min max_records 500 in
    let call := Entrez_efetch_nucleotide start batch_size w q in
    match efetch_nucleotide W (calls s) start batch_size w q with
    | Return parsed_records =>
        (Return parsed_records,
         mkState (self s) (config s) (S (calls s)) (trace s ++ [call]))
    | Raise e =>
        (Return [],
         mkState (self s) (config s) (S (calls s))
           (trace s ++ [call; Print ("Error fetching records: " +:+ str e)]))
    end.
Proof.
  intros Hw Hq. unfold_py. rewrite Hw, Hq. cbn.
  destruct (efetch_nucleotide W (calls s) start (Z.min max_records 500) w q);
    cbn; [reflexivity|].
  by rewrite <- app_assoc.
Qed.

Lemma fetch_records_returns (W : Entrez) (start max_records : Z) (s : State) :
  exists rs s', fetch_records W start max_records s = (Return rs, s') /\
                self s' = self s.
Proof.
  destruct (webenv (self s)) as [w|] eqn:Hw;
    [destruct (query_key (self s)) as [q|] eqn:Hq|].
  - rewrite (fetch_records_session _ _ _ _ w q Hw Hq). cbn.
    destruct (efetch_nucleotide _ _ _ _ _ _); eauto.
  - rewrite fetch_records_no_session by auto. eauto.
  - rewrite fetch_records_no_session by auto. eauto.
Qed.

(** ** [search_taxid] *)

Lemma search_taxid_returns (L : Lib) (W : Entrez) (taxid : string)
    (s : State) :
  exists r s', search_taxid L W taxid s = (Return r, s').
Proof. destruct s as [[? ? ? ? ?] ? ? ?]. unfold_py. exec; eauto. Qed.

(** A search that returns a count has stored both tokens and that count. *)
Lemma search_taxid_Some (L : Lib) (W : Entrez) (taxid : string)
    (s s' : State) (c : Z) :
  search_taxid L W taxid s = (Return (Some c), s') ->
  c <> 0 /\
  exists w q,
    self s' =
      mkNCBIRetriever (email (self s)) (api_key (self s))
        (Some w) (Some q) (Some c).
Proof.
  destruct s as [[? ? ? ? ?] ? ? ?]. unfold_py. exec; intros [= <- <-]; cbn.
  split; [by apply Z.eqb_neq | eauto].
Qed.

(** A search that returns [None] leaves [query_key] and [count] as they
    were, and never removes [webenv]. *)
Lemma search_taxid_None_weak (L : Lib) (W : Entrez) (taxid : string)
    (s s' : State) :
  search_taxid L W taxid s = (Return None, s') ->
  email (self s') = email (self s) /\
  api_key (self s') = api_key (self s) /\
  query_key (self s') = query_key (self s) /\
  count (self s') = count (self s) /\
  (webenv (self s) <> None -> webenv (self s') <> None).
Proof.
  destruct s as [[? ? ? ? ?] ? ? ?]. unfold_py.
  exec; intros [= <-]; cbn; repeat split; try reflexivity;
    intros; congruence.
Qed.

(** Under the history contract it leaves the whole instance as it was. *)
Lemma search_taxid_None (L : Lib) (W : Entrez) (taxid : string)
    (s s' : State) :
  history_tokens_paired W ->
  search_taxid L W taxid s = (Return None, s') ->
  self s' = self s.
Proof.
  intros Hpair. destruct s as [[? ? ? ? ?] ? ? ?]. unfold_py.
  exec; intros [= <-]; cbn; try reflexivity.
  match goal with
  | Hr : esearch_nucleotide W _ _ = Return ?sr, Hw : WebEnv ?sr = Some _,
    Hq : QueryKey ?sr = None |- _ =>
      destruct (Hpair _ _ _ _ Hr Hw) as [q Hq']; congruence
  end.
Qed.

(** Outside the contract the update is partial: with [WebEnv] present and
    [QueryKey] missing, [webenv] is overwritten before the [KeyError]. *)
Lemma search_taxid_partial_update :
  let W := mkEntrez
             (efetch_taxonomy (service_ok "3"))
             (fun _ _ => Return (mkESearchResult (Some "3") (Some "MCID_2") None))
             (efetch_nucleotide (service_ok "3")) in
  let s := mkState (mkNCBIRetriever None None (Some "MCID_1") (Some "1") (Some 7))
             (config initial_state) 3 [] in
  fst (search_taxid example_lib W "9606" s) = Return None /\
  self (snd (search_taxid example_lib W "9606" s)) =
    mkNCBIRetriever None None (Some "MCID_2") (Some "1") (Some 7).
Proof. split; reflexivity. Qed.

(** C3 (as amended). Calling [fetch_records] while [webenv] or [query_key]
    is absent returns the empty list as a normal result, prints the line
    "No search results to fetch. Run search_taxid() first.", issues no
    remote call and leaves the instance unchanged; no exception is raised. *)
Theorem C3_fetch_without_session_returns_empty (W : Entrez)
    (start max_records : Z) (s : State) :
  webenv (self s) = None \/ query_key (self s) = None ->
  exists s',
    fetch_records W start max_records s = (Return [], s') /\
    trace s' = trace s ++ [Print no_session_line] /\
    remote_calls [Print no_session_line] = [] /\
    calls s' = calls s /\
    self s' = self s.
Proof.
  intros H. eexists. split; [by apply fetch_records_no_session|].
  cbn. auto.
Qed.

Lemma C3_fetch_without_session_witness :
  (webenv (self initial_state) = None \/ query_key (self initial_state) = None) /\
  exists s',
    fetch_records (service_ok "3") 0 10 initial_state = (Return [], s') /\
    trace s' = trace initial_state ++ [Print no_session_line] /\
    remote_calls [Print no_session_line] = [] /\
    calls s' = calls initial_state /\
    self s' = self initial_state.
Proof.
  split; [left; reflexivity|].
  apply (C3_fetch_without_session_returns_empty (service_ok "3") 0 10
           initial_state).
  left; reflexivity.
Defined.

(** C3 (as stated) fails: on a fresh instance, which has no stored tokens,
    [fetch_records] does not fail with [NoActiveSessionError] or with any
    other exception; it returns the empty list. *)
Lemma C3_no_error_is_raised :
  webenv (self initial_state) = None /\
  fst (fetch_records (service_ok "3") 0 10 initial_state) = Return [] /\
  ~ (exists msg s',
       fetch_records (service_ok "3") 0 10 initial_state =
         (Raise (PyExc "NoActiveSessionError" msg), s')).
Proof.
  split; [reflexivity|]. split; [reflexivity|].
  intros (msg & s' & H). discriminate H.
Qed.

(** C7. On an instance with stored tokens [w] and [q], [fetch_records start
    max_records] issues exactly one remote call, the batch fetch
    [retstart=start, retmax=min(max_records, 500), webenv=w, query_key=q];
    the requested size exceeds neither [max_records] nor 500; no taxonomy
    lookup or search is issued; the stored tokens are left as they were.
    This holds for every [start], in particular for [start >= 0]. *)
Theorem C7_fetch_window (W : Entrez) (start max_records : Z) (s : State)
    (w q : string) :
  webenv (self s) = Some w -> query_key (self s) = Some q ->
  let s' := snd (fetch_records W start max_records s) in
  exists evs,
    trace s' = trace s ++ evs /\
    remote_calls evs =
      [Entrez_efetch_nucleotide start (Z.min max_records 500) w q] /\
    search_calls evs = [] /\
    Z.min max_records 500 <= max_records /\
    Z.min max_records 500 <= 500 /\
    self s' = self s.
Proof.
  intros Hw Hq. rewrite (fetch_records_session _ _ _ _ w q Hw Hq). cbn.
  destruct (efetch_nucleotide _ _ _ _ _ _); cbn;
    eexists; (split; [reflexivity|]); cbn; repeat split; lia.
Qed.

Lemma C7_fetch_window_witness :
  let s' := snd (fetch_records (service_ok "3") 40 1000 state_after_search) in
  exists evs,
    trace s' = trace state_after_search ++ evs /\
    remote_calls evs = [Entrez_efetch_nucleotide 40 (Z.min 1000 500) "MCID_1" "1"] /\
    search_calls evs = [] /\
    Z.min 1000 500 <= 1000 /\
    Z.min 1000 500 <= 500 /\
    self s' = self state_after_search.
Proof.
  apply (C7_fetch_window (service_ok "3") 40 1000 state_after_search
           "MCID_1" "1"); reflexivity.
Defined.

(** ** [main] *)

(** Case analysis on a whole run: the run is named, executed once on every
    path through the replies, and replaced by its outcome and output. *)
Ltac run_main_exec :=
  match goal with
  | |- context [run_main ?L ?W ?inp] =>
      let E := fresh "E" in
      let r := fresh "r" in
      let t := fresh "t" in
      let Post := fresh "Post" in
      let HPost := fresh "HPost" in
      destruct (run_main L W inp) as [r t] eqn:E;
      pattern r, t;
      match goal with
      | |- ?P r t => remember P as Post eqn:HPost
      end;
      revert E; unfold run_main; exec; intros [= <- <-];
      subst Post; cbv beta
  end.

(** C2. In every run in which the search reply reports a count of zero, the
    run issues no batch fetch and writes none of the three output files
    (archive, CSV, chart), nor starts any plotting; when it ends normally
    its last output is the line "No records found. Exiting.". *)
Theorem C2_zero_count_halts (L : Lib) (W : Entrez) (inp : Inputs)
    (sr : ESearchResult) (txt : string) :
  esearch_nucleotide W 1 ("txid" +:+ in_taxid inp +:+ "[Organism]") = Return sr ->
  Count sr = Some txt ->
  py_int L txt = Return 0 ->
  let t := snd (run_main L W inp) in
  fetch_calls t = [] /\ artifacts t = [] /\ chart_events t = [] /\
  (fst (run_main L W inp) = Return tt ->
   last t = Some (Print "No records found. Exiting.")).
Proof.
  intros Hsr Hcount Hzero. run_main_exec;
    cbn; repeat split; try reflexivity; try discriminate.
Qed.

Lemma C2_zero_count_witness :
  let t := snd (run_main example_lib (service_ok "0") (example_inputs "10" "20")) in
  fetch_calls t = [] /\ artifacts t = [] /\ chart_events t = [] /\
  (fst (run_main example_lib (service_ok "0") (example_inputs "10" "20"))
     = Return tt ->
   last t = Some (Print "No records found. Exiting.")).
Proof.
  apply (C2_zero_count_halts example_lib (service_ok "0")
           (example_inputs "10" "20")
           (mkESearchResult (Some "0") (Some "MCID_1") (Some "1")) "0");
    reflexivity.
Defined.

(** *** The report stage *)

Lemma rows_pd_DataFrame (csv_data : list ReportRow) :
  rows (pd_DataFrame csv_data) = csv_data.
Proof. by destruct csv_data. Qed.

Lemma sort_values_Length_rows (L : Lib) (df df_sorted : DataFrame) :
  sort_values_Length L df = Return df_sorted ->
  rows df_sorted = sort_desc L (rows df).
Proof.
  unfold sort_values_Length. case_bool_decide; [|discriminate].
  by intros [= <-].
Qed.

(** The frame built from no row has no [Length] column to sort by. *)
Lemma sort_values_Length_empty (L : Lib) :
  sort_values_Length L (pd_DataFrame []) = Raise (PyExc "KeyError" "'Length'").
Proof. reflexivity. Qed.

Lemma sort_values_Length_nonempty (L : Lib) (r : ReportRow)
    (rs : list ReportRow) :
  sort_values_Length L (pd_DataFrame (r :: rs)) =
    Return (mkDataFrame ["Accession"; "Length"; "Description"]
              (sort_desc L (r :: rs))).
Proof. reflexivity. Qed.

Lemma length_filter_length (lo hi : Z) (R : list SeqRecord) :
  (length (length_filter lo hi R) <= length R)%nat.
Proof. apply sublist_length, length_filter_sublist. Qed.

(** *** The fetch window of [main] *)

(** C10. A run of [main] issues at most one batch fetch, and that fetch asks
    for 20 records from offset 0; a run that writes any output file has
    issued exactly that one fetch.  With a service that returns at most
    [retmax] records, the archive, the CSV table and the plot therefore each
    carry at most 20 records, whatever count the search reported. *)
Theorem C10_at_most_twenty_records (L : Lib) (W : Entrez) (inp : Inputs) :
  let t := snd (run_main L W inp) in
  (fetch_calls t = [] \/
   exists w q, fetch_calls t = [Entrez_efetch_nucleotide 0 20 w q]) /\
  (artifacts t <> [] ->
   exists w q, fetch_calls t = [Entrez_efetch_nucleotide 0 20 w q]) /\
  (retmax_honoured W -> sort_is_permutation L ->
   forall e, e ∈ t -> (payload_size e <= 20)%nat).
Proof.
  cbv zeta. run_main_exec; cbn -[Z.min]; change (Z.min 20 500) with 20.
  all: split; [try (left; reflexivity); right; eauto|].
  all: split; [intros H; try (by destruct H); eauto|].
  all: intros Hmax Hperm; apply Forall_forall.
  all: repeat first [ apply Forall_nil_2 | apply Forall_cons_2 ].
  all: cbn [payload_size]; try lia.
  all: repeat match goal with
       | H : efetch_nucleotide _ _ _ _ _ _ = Return _ |- _ =>
           apply Hmax in H
       | H : sort_values_Length _ _ = Return _ |- _ =>
           apply sort_values_Length_rows in H; rewrite H
       end.
  all: rewrite ?length_map, ?(Permutation_length (Hperm _)),
         ?rows_pd_DataFrame, ?length_map.
  all: try match goal with
       | |- context [length (length_filter ?lo ?hi ?R)] =>
           pose proof (length_filter_length lo hi R)
       end; try lia.
  all: cbn; lia.
Qed.

Lemma service_ok_retmax_honoured (count_text : string) :
  retmax_honoured (service_ok count_text).
Proof.
  intros n retstart retmax w q rs [= <-]. rewrite length_take. lia.
Qed.

Lemma insert_desc_Permutation (r : ReportRow) (rs : list ReportRow) :
  Permutation (insert_desc r rs) (r :: rs).
Proof.
  induction rs as [|x xs IH]; simpl; [reflexivity|].
  destruct (Length x <? Length r); [reflexivity|].
  rewrite IH. apply perm_swap.
Qed.

Lemma example_lib_sort_is_permutation : sort_is_permutation example_lib.
Proof.
  intros rs. cbn. induction rs as [|r rs IH]; simpl; [reflexivity|].
  rewrite insert_desc_Permutation. by constructor.
Qed.

Lemma C10_at_most_twenty_witness :
  let t := snd (run_main example_lib (service_ok "3000")
                  (example_inputs "10" "40")) in
  fetch_calls t = [Entrez_efetch_nucleotide 0 20 "MCID_1" "1"] /\
  forall e, e ∈ t -> (payload_size e <= 20)%nat.
Proof.
  destruct (C10_at_most_twenty_records example_lib (service_ok "3000")
              (example_inputs "10" "40")) as (_ & _ & Hsize).
  split; [reflexivity|].
  apply Hsize.
  - apply service_ok_retmax_honoured.
  - apply example_lib_sort_is_permutation.
Defined.

(** *** Membership in an explicit output *)

Ltac elem_cases H :=
  repeat (apply elem_of_cons in H as [H|H]; [try discriminate H|]);
  try (apply elem_of_nil in H; destruct H).

(** *** An empty selection *)

Ltac elem_search :=
  repeat first [ apply list_elem_of_here | apply list_elem_of_further ].

(** Whenever the archive is written without records, the run ends in the
    [KeyError] of [sort_values] on a frame without columns, after the CSV
    table and before any plotting call. *)
Lemma main_empty_selection_raises (L : Lib) (W : Entrez) (inp : Inputs)
    (file : string) :
  SeqIO_write file [] ∈ snd (run_main L W inp) ->
  fst (run_main L W inp) = Raise (PyExc "KeyError" "'Length'") /\
  to_csv ("taxid_" +:+ in_taxid inp +:+ "_report.csv") (mkDataFrame [] [])
    ∈ snd (run_main L W inp) /\
  chart_events (snd (run_main L W inp)) = [].
Proof.
  intros Hin. revert Hin. run_main_exec; cbn -[Z.min]; intros Hin;
    elem_cases Hin.
  all: injection Hin; clear Hin; intros.
  all: try match goal with
       | H : [] = length_filter _ _ _ |- _ => rewrite <- H in *
       end.
  all: try match goal with
       | H : sort_values_Length _ _ = _ |- _ =>
           vm_compute in H; try discriminate H; injection H as <-
       end.
  all: cbn; repeat split; try reflexivity; elem_search.
Qed.

(** C5 (the code departs from it). With an empty selection the run does not
    skip the chart and end normally: it raises [KeyError: 'Length'] from
    [sort_values].  Here the three fetched records have lengths 5, 15 and 30
    and the range is 100..200; the archive is written empty, the CSV table is
    written with no row and no header column, no plotting call is reached,
    and the run ends with the uncaught exception. *)
Theorem C5_empty_selection_raises_KeyError :
  let run := run_main example_lib (service_ok "3") (example_inputs "100" "200") in
  fst run = Raise (PyExc "KeyError" "'Length'") /\
  artifacts (snd run) =
    [ SeqIO_write "taxid_9606_sample.gb" [];
      to_csv "taxid_9606_report.csv" (mkDataFrame [] []) ] /\
  chart_events (snd run) = [] /\
  last (snd run) = Some (Print "Saved CSV report to taxid_9606_report.csv").
Proof. vm_compute. repeat split. Qed.

(** *** An inverted range *)

(** C6 (as stated) fails: with minimum 20 and maximum 10 nothing is rejected
    or flagged.  The search and the fetch are issued, the filter runs and
    reports 0 records, and the outcome and the whole output of the run are
    those of the run with the proper range 100..200, which no fetched record
    meets. *)
Lemma C6_inverted_range_not_flagged :
  let inverted := run_main example_lib (service_ok "3") (example_inputs "20" "10") in
  let proper := run_main example_lib (service_ok "3") (example_inputs "100" "200") in
  int_decimal "20" = Return 20 /\ int_decimal "10" = Return 10 /\
  fetch_calls (snd inverted) = [Entrez_efetch_nucleotide 0 20 "MCID_1" "1"] /\
  Print "Filtered to 0 records within length range." ∈ snd inverted /\
  inverted = proper.
Proof.
  vm_compute. repeat split. elem_search.
Qed.

(** * Further properties *)

(** ** The stages of [main] *)

Ltac unfold_monad :=
  lazy beta iota zeta delta
    [bind ret raise try_except emit print lift remote set_self get_self
     set_config with_output self config calls trace].

Lemma main_stages (L : Lib) (W : Entrez) (inp : Inputs) :
  main L W inp initial_state =
    match py_int L (in_min_length inp) with
    | Raise e =>
        (Raise e,
         mkState (self (state_before_search inp))
           (config (state_before_search inp)) 0 (take 4 prompts))
    | Return lo =>
        match py_int L (in_max_length inp) with
        | Raise e => (Raise e, state_before_search inp)
        | Return hi =>
            (count_ <- search_taxid L W (in_taxid inp) ;;
             main_after_search L W (in_taxid inp) lo hi count_)
              (state_before_search inp)
        end
    end.
Proof.
  unfold main.
  lazy beta iota zeta delta
    [bind emit lift NCBIRetriever_init set_self set_config initial_state
     self config calls trace app].
  destruct (py_int L (in_min_length inp)); [|reflexivity].
  destruct (py_int L (in_max_length inp)); reflexivity.
Qed.

Lemma report_empty (L : Lib) (taxid : string) (s : State) :
  report L taxid [] s =
    (Raise (PyExc "KeyError" "'Length'"),
     with_output s (report_events_empty taxid)).
Proof.
  destruct s as [sf cf n t]. unfold report, report_events_empty.
  unfold_monad. rewrite <- !app_assoc. reflexivity.
Qed.

Lemma report_nonempty (L : Lib) (taxid : string) (r : SeqRecord)
    (rs : list SeqRecord) (s : State) :
  report L taxid (r :: rs) s =
    (Return tt, with_output s (report_events L taxid (r :: rs))).
Proof.
  destruct s as [sf cf n t]. unfold report, report_events.
  unfold_monad.
  change (map report_row (r :: rs)) with (report_row r :: map report_row rs).
  rewrite sort_values_Length_nonempty. lazy beta iota.
  rewrite <- !app_assoc. reflexivity.
Qed.

Lemma main_after_search_falsy (L : Lib) (W : Entrez) (taxid : string)
    (lo hi : Z) (count_ : option Z) (s : State) :
  truthy count_ = false ->
  main_after_search L W taxid lo hi count_ s =
    (Return tt, with_output s [Print "No records found. Exiting."]).
Proof. intros H. unfold main_after_search. rewrite H. reflexivity. Qed.

Lemma main_after_search_truthy (L : Lib) (W : Entrez) (taxid : string)
    (lo hi : Z) (count_ : option Z) (s : State) :
  truthy count_ = true ->
  main_after_search L W taxid lo hi count_ s =
    (sample_records <- fetch_records W 0 20 ;;
     report L taxid (length_filter lo hi sample_records))
      (with_output s [Print (newline +:+ "Fetching sample records...")]).
Proof. intros H. unfold main_after_search. rewrite H. reflexivity. Qed.

Lemma truthy_Some (c : Z) : c <> 0 -> truthy (Some c) = true.
Proof. intros H. cbn. by apply negb_true_iff, Z.eqb_neq. Qed.

(** Every run follows one of the five paths. *)
Lemma run_main_path (L : Lib) (W : Entrez) (inp : Inputs) :
  main_path L W inp (fst (run_main L W inp)) (snd (run_main L W inp)).
Proof.
  unfold run_main.
  destruct (main L W inp initial_state) as [r s] eqn:E. cbn [fst snd].
  revert E. rewrite main_stages.
  destruct (py_int L (in_min_length inp)) as [lo|e] eqn:Hlo;
    [|intros [= <- <-]; by apply path_bad_minimum].
  destruct (py_int L (in_max_length inp)) as [hi|e] eqn:Hhi;
    [|intros [= <- <-]; by eapply path_bad_maximum].
  unfold bind.
  destruct (search_taxid_returns L W (in_taxid inp) (state_before_search inp))
    as (count_ & s1 & Hsearch).
  rewrite Hsearch.
  destruct (truthy count_) eqn:Htruthy.
  - rewrite main_after_search_truthy by assumption.
    destruct count_ as [c|]; [|discriminate].
    unfold bind.
    destruct (fetch_records_returns W 0 20
                (with_output s1
                   [Print (newline +:+ "Fetching sample records...")]))
      as (sample_records & s2 & Hfetch & _).
    rewrite Hfetch.
    destruct (length_filter lo hi sample_records) as [|r0 rs] eqn:Hkept.
    + rewrite report_empty. intros [= <- <-]. unfold with_output, trace.
      by eapply path_nothing_kept.
    + rewrite report_nonempty. intros [= <- <-]. unfold with_output, trace.
      rewrite <- Hkept. eapply path_reported; eauto. congruence.
  - rewrite main_after_search_falsy by assumption.
    intros [= <- <-]. unfold with_output, trace. by eapply path_no_records.
Qed.

(** ** The output of [search_taxid] *)

(** Evaluation that also keeps list concatenation folded, for states whose
    earlier output is not known. *)
Ltac red_keep_app :=
  lazy beta iota zeta delta
    -[pretty String.append Z.min Z.eqb length_filter pd_DataFrame
      sort_values_Length report_row len length map Nat.max payload_size
      py_int sort_desc efetch_taxonomy esearch_nucleotide efetch_nucleotide
      ScientificName Count WebEnv QueryKey rows columns Accession Length
      in_email in_api_key in_taxid in_min_length in_max_length
      newline app].

Ltac exec_keep_app :=
  repeat first [ progress red_keep_app | case_scrutinee ].

(** Case analysis on one call of [search_taxid] in a state given by its
    fields: the call is replaced by its result and final state on each path,
    while the statement proved stays folded. *)
Ltac search_taxid_exec :=
  match goal with
  | |- context [search_taxid ?L ?W ?taxid ?s] =>
      let E := fresh "E" in
      let r := fresh "r" in
      let s' := fresh "s'" in
      let Post := fresh "Post" in
      let HPost := fresh "HPost" in
      destruct (search_taxid L W taxid s) as [r s'] eqn:E;
      pattern r, s';
      match goal with
      | |- ?P r s' => remember P as Post eqn:HPost
      end;
      revert E; unfold_py; exec_keep_app; intros [= <- <-];
      subst Post; cbv beta
  end.

Ltac search_premises :=
  unfold organism_name_of, count_of, search_term; cbn [calls];
  repeat first
    [ progress lazy beta iota
    | match goal with
      | H : ?x = _ |- context [?x] => rewrite H
      end ];
  first [ reflexivity | assumption | by apply Z.eqb_neq
        | by (f_equal; apply Z.eqb_eq) ].

Ltac close_search_path :=
  lazymatch goal with
  | |- search_path ?L ?W ?taxid ?s _ _ =>
      first
        [ match goal with
          | H : efetch_taxonomy _ _ _ = Raise ?e |- _ =>
              apply (search_no_organism L W taxid s e)
          end
        | apply (search_no_organism L W taxid s
                   (PyExc "IndexError" "list index out of range"))
        | apply (search_no_organism L W taxid s
                   (PyExc "KeyError" "'ScientificName'"))
        | match goal with
          | H : esearch_nucleotide _ _ _ = Raise ?e |- _ =>
              eapply (search_no_count L W taxid s _ e)
          end
        | eapply (search_no_count L W taxid s _ (PyExc "KeyError" "'Count'"))
        | match goal with
          | H : py_int _ _ = Raise ?e |- _ =>
              eapply (search_no_count L W taxid s _ e)
          end
        | eapply (search_zero L W taxid s)
        | eapply (search_no_WebEnv L W taxid s)
        | eapply (search_no_QueryKey L W taxid s)
        | eapply (search_found L W taxid s) ]
  end;
  try search_premises.

(** Every call of [search_taxid] returns, along one of the six paths. *)
Lemma search_taxid_path (L : Lib) (W : Entrez) (taxid : string) (s : State) :
  exists result s',
    search_taxid L W taxid s = (Return result, s') /\
    search_path L W taxid s result s'.
Proof.
  destruct s as [sf cf n t].
  destruct (search_taxid L W taxid (mkState sf cf n t)) as [r s'] eqn:E.
  revert E. unfold_py. exec_keep_app; intros [= <- <-].
  all: eexists _, _; split; [reflexivity|].
  all: rewrite <- ?app_assoc; cbn [app].
  all: close_search_path.
Qed.

Ltac unfold_lines :=
  unfold search_line, organism_line, found_line, search_error_line in *.

(** What a call of [search_taxid] adds to the output: its first line and
    the taxonomy lookup, then at most one further remote call, the search;
    never a fetch, a file or a plotting call. *)
Lemma search_path_output (L : Lib) (W : Entrez) (taxid : string)
    (s s' : State) (result : option Z) :
  search_path L W taxid s result s' ->
  exists evs,
    trace s' = trace s ++ search_line taxid :: Entrez_efetch_taxonomy taxid :: evs /\
    (remote_calls evs = [] /\ calls s' = S (calls s) \/
     remote_calls evs = [Entrez_esearch (search_term taxid)] /\
       calls s' = S (S (calls s))) /\
    fetch_calls evs = [] /\ artifacts evs = [] /\ chart_events evs = [] /\
    config s' = config s.
Proof.
  destruct 1; (eexists; split; [reflexivity|]); unfold_lines; cbn; auto 10.
Qed.

(** X6. [search_taxid] never raises.  It leaves [email], [api_key] and the
    [Entrez] configuration as they were.  When it returns a count, the count
    is not zero, it is the stored [count], and both tokens are stored; when
    it returns [None], [query_key] and [count] are as before the call. *)
Theorem search_taxid_result (L : Lib) (W : Entrez) (taxid : string)
    (s : State) :
  exists result s',
    search_taxid L W taxid s = (Return result, s') /\
    email (self s') = email (self s) /\
    api_key (self s') = api_key (self s) /\
    config s' = config s /\
    match result with
    | Some c =>
        c <> 0 /\ count (self s') = Some c /\
        exists w q, webenv (self s') = Some w /\ query_key (self s') = Some q
    | None =>
        query_key (self s') = query_key (self s) /\
        count (self s') = count (self s)
    end.
Proof.
  destruct (search_taxid_path L W taxid s) as (result & s' & E & P).
  exists result, s'. split; [exact E|].
  destruct P; cbn; eauto 10.
Qed.

(** X10. In every state, [search_taxid] first prints its search line and
    issues the taxonomy lookup for the identifier as typed; after that it
    issues at most one more remote call, the search for
    [txid<taxid>[Organism]]; it never issues a batch fetch, writes a file or
    plots. *)
Theorem search_taxid_calls (L : Lib) (W : Entrez) (taxid : string)
    (s : State) :
  exists evs,
    trace (snd (search_taxid L W taxid s)) =
      trace s ++ search_line taxid :: Entrez_efetch_taxonomy taxid :: evs /\
    (remote_calls evs = [] \/
     remote_calls evs = [Entrez_esearch ("txid" +:+ taxid +:+ "[Organism]")]) /\
    fetch_calls evs = [] /\ artifacts evs = [] /\ chart_events evs = [].
Proof.
  destruct (search_taxid_path L W taxid s) as (result & s' & E & P).
  rewrite E. cbn [snd].
  destruct (search_path_output _ _ _ _ _ _ P)
    as (evs & Ht & Hcalls & Hf & Ha & Hc & _).
  exists evs. split; [exact Ht|]. split; [|auto].
  destruct Hcalls as [[H _]|[H _]]; auto.
Qed.

(** A failed lookup of the organism name ends the search after one remote
    call. *)
Lemma search_taxid_no_organism (L : Lib) (W : Entrez) (taxid : string)
    (s : State) (e : exn) :
  organism_name_of (efetch_taxonomy W (calls s) taxid) = Raise e ->
  search_taxid L W taxid s =
    (Return None,
     mkState (self s) (config s) (S (calls s))
       (trace s ++
          [ search_line taxid; Entrez_efetch_taxonomy taxid;
            search_error_line taxid e ])).
Proof.
  intros H. destruct (search_taxid_path L W taxid s) as (result & s' & E & P).
  rewrite E. destruct P; congruence.
Qed.

(** X8. When the taxonomy lookup fails, returns no entry, or returns a
    first entry without [ScientificName], [search_taxid] returns [None]
    after that single remote call: no search is issued, the instance is
    unchanged, and the error line carries the exception text, which is
    "list index out of range" for the empty document and "'ScientificName'"
    for the missing key. *)
Theorem search_taxid_unresolved (L : Lib) (W : Entrez) (taxid : string)
    (s : State) (e : exn) :
  efetch_taxonomy W (calls s) taxid = Raise e \/
  efetch_taxonomy W (calls s) taxid = Return [] /\
    e = PyExc "IndexError" "list index out of range" \/
  (exists entry more,
     efetch_taxonomy W (calls s) taxid = Return (entry :: more) /\
     ScientificName entry = None) /\
    e = PyExc "KeyError" "'ScientificName'" ->
  search_taxid L W taxid s =
    (Return None,
     mkState (self s) (config s) (S (calls s))
       (trace s ++
          [ Print ("Searching for records with taxID: " +:+ taxid);
            Entrez_efetch_taxonomy taxid;
            Print ("Error searching TaxID " +:+ taxid +:+ ": " +:+ str e) ])).
Proof.
  intros H. apply search_taxid_no_organism.
  destruct H as [H|[[H ->]|[(entry & more & H & Hname) ->]]];
    rewrite H; cbn; [reflexivity..|].
  by rewrite Hname.
Qed.

Lemma search_taxid_unresolved_witness :
  search_taxid example_lib service_unknown_taxid "0" initial_state =
    (Return None,
     mkState (self initial_state) (config initial_state) 1
       [ Print "Searching for records with taxID: 0";
         Entrez_efetch_taxonomy "0";
         Print "Error searching TaxID 0: list index out of range" ]).
Proof.
  apply (search_taxid_unresolved example_lib service_unknown_taxid "0"
           initial_state (PyExc "IndexError" "list index out of range")).
  right. left. split; reflexivity.
Defined.

(** X7. When the taxonomy document has a first entry with a name and the
    search reply carries a count that is not zero and both tokens,
    [search_taxid] returns that count and stores the reply's tokens and
    count, replacing any earlier ones; it prints the search line, the
    organism line and the "Found" line around its two remote calls.  Only
    the first taxonomy entry is used. *)
Theorem search_taxid_success (L : Lib) (W : Entrez) (taxid : string)
    (s : State) (entry : TaxonEntry) (more : list TaxonEntry)
    (organism_name : string) (search_results : ESearchResult)
    (count_text : string) (c : Z) (w q : string) :
  efetch_taxonomy W (calls s) taxid = Return (entry :: more) ->
  ScientificName entry = Some organism_name ->
  esearch_nucleotide W (S (calls s)) ("txid" +:+ taxid +:+ "[Organism]")
    = Return search_results ->
  Count search_results = Some count_text ->
  py_int L count_text = Return c ->
  c <> 0 ->
  WebEnv search_results = Some w ->
  QueryKey search_results = Some q ->
  search_taxid L W taxid s =
    (Return (Some c),
     mkState
       (mkNCBIRetriever (email (self s)) (api_key (self s))
          (Some w) (Some q) (Some c))
       (config s) (S (S (calls s)))
       (trace s ++
          [ Print ("Searching for records with taxID: " +:+ taxid);
            Entrez_efetch_taxonomy taxid;
            Print ("Organism: " +:+ organism_name
                   +:+ " (TaxID: " +:+ taxid +:+ ")");
            Entrez_esearch ("txid" +:+ taxid +:+ "[Organism]");
            Print ("Found " +:+ pretty c +:+ " records") ])).
Proof.
  intros Htax Hname Hsearch Hcount Hint Hc Hw Hq.
  assert (Hname' : organism_name_of (efetch_taxonomy W (calls s) taxid)
                   = Return organism_name)
    by (rewrite Htax; cbn; by rewrite Hname).
  assert (Hcount' : count_of L (Return search_results) = Return c)
    by (cbn; by rewrite Hcount).
  destruct (search_taxid_path L W taxid s) as (result & s' & E & P).
  rewrite E. unfold search_term in P.
  destruct P; unfold_lines; unfold search_term in *;
    repeat match goal with
           | H : esearch_nucleotide _ _ _ = Return ?sr |- _ =>
               rewrite Hsearch in H; injection H as <-
           | H : count_of _ (esearch_nucleotide _ _ _) = _ |- _ =>
               unfold search_term in H; rewrite Hsearch in H
           end;
    congruence.
Qed.

Lemma search_taxid_success_witness :
  search_taxid example_lib (service_ok "3") "9606" initial_state =
    (Return (Some 3),
     mkState
       (mkNCBIRetriever None None (Some "MCID_1") (Some "1") (Some 3))
       (config initial_state) 2
       [ Print "Searching for records with taxID: 9606";
         Entrez_efetch_taxonomy "9606";
         Print "Organism: Homo sapiens (TaxID: 9606)";
         Entrez_esearch "txid9606[Organism]";
         Print "Found 3 records" ]).
Proof.
  apply (search_taxid_success example_lib (service_ok "3") "9606"
           initial_state (mkTaxonEntry (Some "Homo sapiens")) []
           "Homo sapiens"
           (mkESearchResult (Some "3") (Some "MCID_1") (Some "1"))
           "3" 3 "MCID_1" "1");
    first [ reflexivity | lia ].
Defined.

(** X9. When the search reply carries a count that is not zero but no
    [WebEnv], [search_taxid] prints the "Found" line, then the error line
    for the missing key, and returns [None]; nothing is stored on the
    instance. *)
Theorem search_taxid_without_WebEnv (L : Lib) (W : Entrez) (taxid : string)
    (s : State) (entry : TaxonEntry) (more : list TaxonEntry)
    (organism_name : string) (search_results : ESearchResult)
    (count_text : string) (c : Z) :
  efetch_taxonomy W (calls s) taxid = Return (entry :: more) ->
  ScientificName entry = Some organism_name ->
  esearch_nucleotide W (S (calls s)) ("txid" +:+ taxid +:+ "[Organism]")
    = Return search_results ->
  Count search_results = Some count_text ->
  py_int L count_text = Return c ->
  c <> 0 ->
  WebEnv search_results = None ->
  search_taxid L W taxid s =
    (Return None,
     mkState (self s) (config s) (S (S (calls s)))
       (trace s ++
          [ Print ("Searching for records with taxID: " +:+ taxid);
            Entrez_efetch_taxonomy taxid;
            Print ("Organism: " +:+ organism_name
                   +:+ " (TaxID: " +:+ taxid +:+ ")");
            Entrez_esearch ("txid" +:+ taxid +:+ "[Organism]");
            Print ("Found " +:+ pretty c +:+ " records");
            Print ("Error searching TaxID " +:+ taxid +:+ ": 'WebEnv'") ])).
Proof.
  intros Htax Hname Hsearch Hcount Hint Hc Hw.
  assert (Hname' : organism_name_of (efetch_taxonomy W (calls s) taxid)
                   = Return organism_name)
    by (rewrite Htax; cbn; by rewrite Hname).
  assert (Hcount' : count_of L (Return search_results) = Return c)
    by (cbn; by rewrite Hcount).
  destruct (search_taxid_path L W taxid s) as (result & s' & E & P).
  rewrite E. unfold search_term in P.
  destruct P; unfold_lines; unfold search_term in *;
    repeat match goal with
           | H : esearch_nucleotide _ _ _ = Return ?sr |- _ =>
               rewrite Hsearch in H; injection H as <-
           | H : count_of _ (esearch_nucleotide _ _ _) = _ |- _ =>
               unfold search_term in H; rewrite Hsearch in H
           end;
    try congruence.
  replace organism_name0 with organism_name by congruence.
  replace c0 with c by congruence.
  reflexivity.
Qed.

Lemma search_taxid_without_WebEnv_witness :
  search_taxid example_lib service_without_history "9606" initial_state =
    (Return None,
     mkState (self initial_state) (config initial_state) 2
       [ Print "Searching for records with taxID: 9606";
         Entrez_efetch_taxonomy "9606";
         Print "Organism: Homo sapiens (TaxID: 9606)";
         Entrez_esearch "txid9606[Organism]";
         Print "Found 3 records";
         Print "Error searching TaxID 9606: 'WebEnv'" ]).
Proof.
  apply (search_taxid_without_WebEnv example_lib service_without_history
           "9606" initial_state (mkTaxonEntry (Some "Homo sapiens")) []
           "Homo sapiens" (mkESearchResult (Some "3") None None) "3" 3);
    first [ reflexivity | lia ].
Defined.

(** ** [__init__] and [fetch_records] *)

(** X4. Constructing a retriever stores the two credentials on the instance
    and in the [Entrez] configuration, with the tool name "BioScriptEx10",
    prints nothing and makes no remote call; the new instance carries no
    session, whatever was stored before, so [fetch_records] on it returns
    the empty list after the no-session line, without a remote call. *)
Theorem fresh_retriever_has_no_session (W : Entrez) (email_ api_key_ : string)
    (start max_records : Z) (s : State) :
  let s1 := snd (NCBIRetriever_init email_ api_key_ s) in
  fst (NCBIRetriever_init email_ api_key_ s) = Return tt /\
  self s1 = mkNCBIRetriever (Some email_) (Some api_key_) None None None /\
  config s1 =
    mkEntrezConfig (Some email_) (Some api_key_) (Some "BioScriptEx10") /\
  trace s1 = trace s /\ calls s1 = calls s /\
  fetch_records W start max_records s1 =
    (Return [], with_output s1 [Print no_session_line]).
Proof.
  cbv zeta. repeat split.
  all: try (apply fetch_records_no_session; left; reflexivity).
Qed.

(** X5. Two successive calls of [fetch_records] on an instance with stored
    tokens issue two batch fetches with the same tokens, each with its own
    offset and its own size capped at 500, whether or not the first one
    failed; the instance is unchanged. *)
Theorem fetch_records_twice (W : Entrez) (s : State) (w q : string)
    (start1 max_records1 start2 max_records2 : Z) :
  webenv (self s) = Some w -> query_key (self s) = Some q ->
  let s1 := snd (fetch_records W start1 max_records1 s) in
  let s2 := snd (fetch_records W start2 max_records2 s1) in
  exists evs,
    trace s2 = trace s ++ evs /\
    remote_calls evs =
      [ Entrez_efetch_nucleotide start1 (Z.min max_records1 500) w q;
        Entrez_efetch_nucleotide start2 (Z.min max_records2 500) w q ] /\
    self s2 = self s /\ calls s2 = S (S (calls s)).
Proof.
  intros Hw Hq. cbv zeta.
  rewrite (fetch_records_session W start1 max_records1 s w q Hw Hq).
  cbv zeta.
  destruct (efetch_nucleotide W (calls s) start1 _ w q); cbn [snd].
  all: erewrite (fetch_records_session W start2 max_records2 _ w q)
         by (cbn [self]; assumption).
  all: cbv zeta; cbn [calls trace self config].
  all: destruct (efetch_nucleotide W (S (calls s)) start2 _ w q); cbn [snd].
  all: cbn [calls trace self config]; rewrite <- app_assoc.
  all: eexists; split; [reflexivity|]; cbn; auto.
Qed.

Lemma fetch_records_twice_witness :
  let s1 := snd (fetch_records (service_ok "3") 0 2 state_after_search) in
  let s2 := snd (fetch_records (service_ok "3") 2 1000 s1) in
  exists evs,
    trace s2 = trace state_after_search ++ evs /\
    remote_calls evs =
      [ Entrez_efetch_nucleotide 0 (Z.min 2 500) "MCID_1" "1";
        Entrez_efetch_nucleotide 2 (Z.min 1000 500) "MCID_1" "1" ] /\
    self s2 = self state_after_search /\
    calls s2 = S (S (calls state_after_search)).
Proof.
  apply (fetch_records_twice (service_ok "3") state_after_search
           "MCID_1" "1" 0 2 2 1000); reflexivity.
Defined.

(** ** More on the length filter *)

Lemma in_range_compose (lo1 hi1 lo2 hi2 : Z) (r : SeqRecord) :
  in_range (Z.max lo1 lo2) (Z.min hi1 hi2) r =
  in_range lo1 hi1 r && in_range lo2 hi2 r.
Proof.
  unfold in_range.
  repeat match goal with
         | |- context [?a <=? ?b] => destruct (Z.leb_spec a b)
         end; simpl; try reflexivity; lia.
Qed.

(** X1. Filtering a filtered list keeps the records in both ranges: the
    result is the filter for the larger minimum and the smaller maximum, so
    two filters commute. *)
Theorem length_filter_compose (lo1 hi1 lo2 hi2 : Z) (R : list SeqRecord) :
  length_filter lo1 hi1 (length_filter lo2 hi2 R) =
    length_filter (Z.max lo1 lo2) (Z.min hi1 hi2) R /\
  length_filter lo1 hi1 (length_filter lo2 hi2 R) =
    length_filter lo2 hi2 (length_filter lo1 hi1 R).
Proof.
  assert (H : forall a b c d,
             length_filter a b (length_filter c d R) =
             length_filter (Z.max a c) (Z.min b d) R).
  { intros a b c d. induction R as [|r R IH]; simpl; [reflexivity|].
    rewrite in_range_compose.
    destruct (in_range c d r); simpl;
      destruct (in_range a b r); simpl; congruence. }
  split; [apply H|].
  rewrite !H. by rewrite Z.max_comm, Z.min_comm.
Qed.

(** X2. Filtering the concatenation of two batches gives the
    concatenation of the filtered batches. *)
Theorem length_filter_batches (lo hi : Z) (R1 R2 : list SeqRecord) :
  length_filter lo hi (R1 ++ R2) =
    length_filter lo hi R1 ++ length_filter lo hi R2.
Proof.
  induction R1 as [|r R1 IH]; simpl; [reflexivity|].
  destruct (in_range lo hi r); simpl; congruence.
Qed.

Lemma len_nonneg (s : string) : 0 <= len s.
Proof. unfold len. lia. Qed.

(** X3. Lengths are never negative, so a minimum below zero acts as zero
    and a maximum below zero keeps no record. *)
Theorem length_filter_negative_bounds (lo hi : Z) (R : list SeqRecord) :
  (lo <= 0 -> length_filter lo hi R = length_filter 0 hi R) /\
  (hi < 0 -> length_filter lo hi R = []).
Proof.
  split; intros H; induction R as [|r R IH]; simpl; try reflexivity.
  - replace (in_range lo hi r) with (in_range 0 hi r); [by rewrite IH|].
    unfold in_range. pose proof (len_nonneg (rec_seq r)).
    destruct (Z.leb_spec lo (len (rec_seq r))),
      (Z.leb_spec 0 (len (rec_seq r))); try reflexivity; lia.
  - replace (in_range lo hi r) with false; [exact IH|].
    unfold in_range. pose proof (len_nonneg (rec_seq r)).
    destruct (Z.leb_spec (len (rec_seq r)) hi); [lia|].
    by rewrite andb_false_r.
Qed.

Lemma length_filter_negative_bounds_witness :
  length_filter (-5) 20 [rec_short; rec_mid; rec_long]
    = length_filter 0 20 [rec_short; rec_mid; rec_long] /\
  length_filter (-5) (-1) [rec_short; rec_mid; rec_long] = [].
Proof.
  split.
  - apply (length_filter_negative_bounds (-5) 20); lia.
  - apply (length_filter_negative_bounds (-5) (-1)); lia.
Defined.

(** ** Runs of [main], path by path *)

Lemma filtered_out_not_elem_of (p : event -> bool) (l : list event)
    (e : event) :
  List.filter p l = [] -> p e = true -> e ∉ l.
Proof.
  intros Hnil Hp Hin. apply list_elem_of_In in Hin.
  assert (Hf : In e (List.filter p l)) by (apply List.filter_In; auto).
  rewrite Hnil in Hf. destruct Hf.
Qed.

Lemma artifacts_app (l1 l2 : list event) :
  artifacts (l1 ++ l2) = artifacts l1 ++ artifacts l2.
Proof. apply List.filter_app. Qed.

Lemma chart_events_app (l1 l2 : list event) :
  chart_events (l1 ++ l2) = chart_events l1 ++ chart_events l2.
Proof. apply List.filter_app. Qed.

Lemma fetch_calls_app (l1 l2 : list event) :
  fetch_calls (l1 ++ l2) = fetch_calls l1 ++ fetch_calls l2.
Proof. apply List.filter_app. Qed.

Lemma remote_calls_app (l1 l2 : list event) :
  remote_calls (l1 ++ l2) = remote_calls l1 ++ remote_calls l2.
Proof. apply List.filter_app. Qed.

(** The output of a run up to the end of a search that gave no count. *)
Lemma searched_output (L : Lib) (W : Entrez) (inp : Inputs)
    (count_ : option Z) (s1 : State) :
  search_taxid L W (in_taxid inp) (state_before_search inp)
    = (Return count_, s1) ->
  exists evs,
    trace s1 = prompts ++ evs /\
    fetch_calls evs = [] /\ artifacts evs = [] /\ chart_events evs = [].
Proof.
  intros Hsearch.
  destruct (search_taxid_path L W (in_taxid inp) (state_before_search inp))
    as (result & s' & E & P).
  rewrite Hsearch in E. injection E as <- <-.
  destruct (search_path_output _ _ _ _ _ _ P)
    as (evs & Ht & _ & Hf & Ha & Hc & _).
  eexists. split; [exact Ht|].
  cbn. auto.
Qed.

(** The output of a run up to the return of [fetch_records]: the prompts,
    the two calls of the search, and one batch fetch of 20 records from
    offset 0; no file and no plotting call yet. *)
Lemma fetched_output (L : Lib) (W : Entrez) (inp : Inputs) (c : Z)
    (s1 s2 : State) (sample_records : list SeqRecord) :
  search_taxid L W (in_taxid inp) (state_before_search inp)
    = (Return (Some c), s1) ->
  fetch_records W 0 20
    (with_output s1 [Print (newline +:+ "Fetching sample records...")])
    = (Return sample_records, s2) ->
  exists evs w q,
    trace s2 = prompts ++ evs /\
    remote_calls evs =
      [ Entrez_efetch_taxonomy (in_taxid inp);
        Entrez_esearch (search_term (in_taxid inp));
        Entrez_efetch_nucleotide 0 20 w q ] /\
    fetch_calls evs = [Entrez_efetch_nucleotide 0 20 w q] /\
    artifacts evs = [] /\ chart_events evs = [].
Proof.
  intros Hsearch Hfetch.
  destruct (search_taxid_path L W (in_taxid inp) (state_before_search inp))
    as (result & s' & E & P).
  rewrite Hsearch in E. injection E as <- <-.
  inversion P as [| | | | |organism_name search_results c' w q _ _ _ _ _ _ Hc Hs1];
    subst.
  rewrite (fetch_records_session W 0 20 _ w q) in Hfetch by reflexivity.
  cbv zeta in Hfetch. change (Z.min 20 500) with 20 in Hfetch.
  cbn [calls with_output] in Hfetch.
  destruct (efetch_nucleotide W _ 0 20 w q);
    injection Hfetch as <- <-; cbn [trace with_output state_before_search];
    rewrite <- ?app_assoc; cbn [app];
    (eexists _, w, q; split; [reflexivity|]); unfold_lines; cbn; auto.
Qed.

Ltac run_paths L W inp :=
  let P := fresh "P" in
  pose proof (run_main_path L W inp) as P;
  destruct (run_main L W inp) as [? ?]; cbn [fst snd] in *;
  destruct P.

(** X11. When the minimum or the maximum typed is not an integer, [main]
    raises the error of [int()] at that point: after four prompts for a bad
    minimum, after five for a bad maximum; nothing else is output, so no
    remote call is made and no file is written. *)
Theorem main_bad_number_aborts (L : Lib) (W : Entrez) (inp : Inputs)
    (e : exn) :
  (py_int L (in_min_length inp) = Raise e ->
   run_main L W inp = (Raise e, take 4 prompts)) /\
  (forall lo,
     py_int L (in_min_length inp) = Return lo ->
     py_int L (in_max_length inp) = Raise e ->
     run_main L W inp = (Raise e, prompts)).
Proof.
  split; [intros H | intros lo Hlo H]; run_paths L W inp; congruence.
Qed.

Lemma main_bad_number_witness :
  run_main example_lib (service_ok "3") (example_inputs "ten" "20") =
    (Raise (PyExc "ValueError"
              "invalid literal for int() with base 10: 'ten'"),
     take 4 prompts).
Proof.
  apply (main_bad_number_aborts example_lib (service_ok "3")
           (example_inputs "ten" "20")).
  reflexivity.
Defined.

(** X12. With both numbers parsed, whenever [search_taxid] returns [None],
    for a failed lookup or search as for a count of zero, [main] prints
    "No records found. Exiting." right after the output of the search and
    returns normally; no batch fetch is issued and no file is written. *)
Theorem main_without_count_exits (L : Lib) (W : Entrez) (inp : Inputs)
    (lo hi : Z) (s1 : State) :
  py_int L (in_min_length inp) = Return lo ->
  py_int L (in_max_length inp) = Return hi ->
  search_taxid L W (in_taxid inp) (state_before_search inp)
    = (Return None, s1) ->
  run_main L W inp =
    (Return tt, trace s1 ++ [Print "No records found. Exiting."]) /\
  fetch_calls (snd (run_main L W inp)) = [] /\
  artifacts (snd (run_main L W inp)) = [].
Proof.
  intros Hlo Hhi Hsearch.
  destruct (searched_output _ _ _ _ _ Hsearch) as (evs & Ht & Hf & Ha & _).
  run_paths L W inp; try congruence.
  replace s0 with s1 by congruence.
  split; [reflexivity|].
  rewrite fetch_calls_app, artifacts_app, Ht, fetch_calls_app, artifacts_app.
  rewrite Hf, Ha. split; reflexivity.
Qed.

Lemma main_without_count_witness :
  run_main example_lib service_unknown_taxid (example_inputs "10" "20") =
    (Return tt,
     trace (snd (search_taxid example_lib service_unknown_taxid "9606"
                   (state_before_search (example_inputs "10" "20"))))
       ++ [Print "No records found. Exiting."]) /\
  fetch_calls
    (snd (run_main example_lib service_unknown_taxid
            (example_inputs "10" "20"))) = [] /\
  artifacts
    (snd (run_main example_lib service_unknown_taxid
            (example_inputs "10" "20"))) = [].
Proof.
  apply (main_without_count_exits example_lib service_unknown_taxid
           (example_inputs "10" "20") 10 20); reflexivity.
Defined.

Lemma zip_map_rows (rs : list ReportRow) :
  zip (map Accession rs) (map Length rs) =
    map (fun r => (Accession r, Length r)) rs.
Proof. induction rs as [|r rs IH]; simpl; congruence. Qed.

(** Membership in the output of a run that reached the report stage: an
    artifact or a plotting call can only come from the report stage. *)
Lemma report_stage_elem_of (evs report_evs : list event) (e : event) :
  artifacts evs = [] -> chart_events evs = [] ->
  is_artifact e = true \/ is_chart_event e = true ->
  e ∈ (prompts ++ evs) ++ report_evs -> e ∈ report_evs.
Proof.
  intros Ha Hc He Hin.
  apply elem_of_app in Hin as [Hin|Hin]; [exfalso|exact Hin].
  destruct He as [He|He].
  - revert Hin. apply (filtered_out_not_elem_of is_artifact); [|exact He].
    change (artifacts (prompts ++ evs) = []).
    rewrite artifacts_app, Ha. reflexivity.
  - revert Hin. apply (filtered_out_not_elem_of is_chart_event); [|exact He].
    change (chart_events (prompts ++ evs) = []).
    rewrite chart_events_app, Hc. reflexivity.
Qed.

Lemma no_report_elem_of (evs tail : list event) (e : event) :
  artifacts evs = [] -> chart_events evs = [] ->
  artifacts tail = [] -> chart_events tail = [] ->
  is_artifact e = true \/ is_chart_event e = true ->
  e ∉ (prompts ++ evs) ++ tail.
Proof.
  intros Ha Hc Ha' Hc' He Hin.
  apply (report_stage_elem_of evs tail e Ha Hc He) in Hin.
  destruct He as [He|He]; revert Hin.
  - by apply (filtered_out_not_elem_of is_artifact).
  - by apply (filtered_out_not_elem_of is_chart_event).
Qed.

(** In each path, what is known of the output before the report stage. *)
Ltac split_output :=
  match goal with
  | Hs : search_taxid _ _ _ _ = (Return (Some _), ?s1),
    Hf : fetch_records _ 0 20 _ = (Return _, ?s2) |- _ =>
      let evs := fresh "evs" in
      let w := fresh "w" in
      let q := fresh "q" in
      let Ht := fresh "Ht" in
      let Hr := fresh "Hr" in
      let Hfc := fresh "Hfc" in
      let Ha := fresh "Ha" in
      let Hc := fresh "Hc" in
      destruct (fetched_output _ _ _ _ _ _ _ Hs Hf)
        as (evs & w & q & Ht & Hr & Hfc & Ha & Hc);
      rewrite Ht in *
  | Hs : search_taxid _ _ _ _ = (Return _, ?s1) |- _ =>
      let evs := fresh "evs" in
      let Ht := fresh "Ht" in
      let Hfc := fresh "Hfc" in
      let Ha := fresh "Ha" in
      let Hc := fresh "Hc" in
      destruct (searched_output _ _ _ _ _ Hs) as (evs & Ht & Hfc & Ha & Hc);
      rewrite Ht in *
  end.

(** X13. Whenever a run writes the CSV table, it has written the archive
    before, and the table has one row per archived record, in the same
    order: the record's [id], the length of its sequence and its
    description.  The file is [taxid_<taxid>_report.csv]. *)
Theorem csv_rows_match_archive (L : Lib) (W : Entrez) (inp : Inputs)
    (file : string) (df : DataFrame) :
  to_csv file df ∈ snd (run_main L W inp) ->
  file = "taxid_" +:+ in_taxid inp +:+ "_report.csv" /\
  exists rs,
    SeqIO_write ("taxid_" +:+ in_taxid inp +:+ "_sample.gb") rs
      ∈ snd (run_main L W inp) /\
    rows df = map report_row rs /\
    length (rows df) = length rs.
Proof.
  run_paths L W inp; intros Hin.
  - cbn in Hin. elem_cases Hin.
  - cbn in Hin. elem_cases Hin.
  - split_output. exfalso. revert Hin.
    apply no_report_elem_of; cbn; auto.
  - split_output.
    apply report_stage_elem_of in Hin; [|assumption..|by left].
    unfold report_events_empty in Hin. elem_cases Hin.
    injection Hin as -> ->. split; [reflexivity|]. exists [].
    split; [|split; reflexivity].
    apply elem_of_app. right. unfold report_events_empty. elem_search.
  - split_output.
    apply report_stage_elem_of in Hin; [|assumption..|by left].
    unfold report_events in Hin. cbv zeta in Hin. elem_cases Hin.
    injection Hin as -> ->. split; [reflexivity|].
    eexists. split; [|cbn [rows]; split; [reflexivity|by rewrite length_map]].
    apply elem_of_app. right. unfold report_events. cbv zeta. elem_search.
Qed.

Lemma csv_rows_match_archive_witness :
  let t := snd (run_main example_lib (service_ok "3")
                  (example_inputs "10" "40")) in
  let df := mkDataFrame ["Accession"; "Length"; "Description"]
              [report_row rec_mid; report_row rec_long] in
  "taxid_9606_report.csv" = "taxid_" +:+ "9606" +:+ "_report.csv" /\
  exists rs,
    SeqIO_write ("taxid_" +:+ "9606" +:+ "_sample.gb") rs ∈ t /\
    rows df = map report_row rs /\
    length (rows df) = length rs.
Proof.
  apply (csv_rows_match_archive example_lib (service_ok "3")
           (example_inputs "10" "40") "taxid_9606_report.csv").
  vm_compute. elem_search.
Defined.

(** X14. Whenever a run plots, the two coordinate lists have the same
    length and their pairs are the accession and the length of the rows of
    the CSV table it has written, each row once, given that [sort_values]
    returns a permutation of the rows. *)
Theorem chart_points_are_csv_rows (L : Lib) (W : Entrez) (inp : Inputs)
    (xs : list string) (ys : list Z) :
  sort_is_permutation L ->
  plt_plot xs ys ∈ snd (run_main L W inp) ->
  length xs = length ys /\
  exists file df,
    to_csv file df ∈ snd (run_main L W inp) /\
    zip xs ys ≡ₚ map (fun r => (Accession r, Length r)) (rows df).
Proof.
  intros Hperm. run_paths L W inp; intros Hin.
  - cbn in Hin. elem_cases Hin.
  - cbn in Hin. elem_cases Hin.
  - split_output. exfalso. revert Hin.
    apply no_report_elem_of; cbn; auto.
  - split_output.
    apply report_stage_elem_of in Hin; [|assumption..|by right].
    unfold report_events_empty in Hin. elem_cases Hin.
  - split_output.
    apply report_stage_elem_of in Hin; [|assumption..|by right].
    unfold report_events in Hin. cbv zeta in Hin. elem_cases Hin.
    injection Hin as -> ->. split; [by rewrite !length_map|].
    eexists _, _. split.
    + apply elem_of_app. right. unfold report_events. cbv zeta. elem_search.
    + rewrite zip_map_rows. cbn [rows].
      apply Permutation_map, Hperm.
Qed.

Lemma chart_points_are_csv_rows_witness :
  let t := snd (run_main example_lib (service_ok "3")
                  (example_inputs "10" "40")) in
  length ["AB000003.1"; "AB000002.1"] = length [30; 15] /\
  exists file df,
    to_csv file df ∈ t /\
    zip ["AB000003.1"; "AB000002.1"] [30; 15]
      ≡ₚ map (fun r => (Accession r, Length r)) (rows df).
Proof.
  apply (chart_points_are_csv_rows example_lib (service_ok "3")
           (example_inputs "10" "40")).
  - apply example_lib_sort_is_permutation.
  - vm_compute. elem_search.
Defined.

(** * Session state after a later search *)




(** * Runs that differ in the typed lengths *)

Lemma same_session_state (inp inp' : Inputs) :
  same_session_inputs inp inp' ->
  state_before_search inp' = state_before_search inp /\
  in_taxid inp' = in_taxid inp.
Proof.
  intros (He & Hk & Ht). unfold state_before_search.
  by rewrite He, Hk, Ht.
Qed.

(** A run depends on the two lengths only through the records they select
    from the fetched sample. *)
Lemma run_main_same_selection (L : Lib) (W : Entrez) (inp inp' : Inputs)
    (lo hi lo' hi' : Z) :
  same_session_inputs inp inp' ->
  py_int L (in_min_length inp) = Return lo ->
  py_int L (in_max_length inp) = Return hi ->
  py_int L (in_min_length inp') = Return lo' ->
  py_int L (in_max_length inp') = Return hi' ->
  length_filter lo hi (sample_of_run L W inp)
    = length_filter lo' hi' (sample_of_run L W inp) ->
  run_main L W inp = run_main L W inp'.
Proof.
  intros Hsame Hlo Hhi Hlo' Hhi' Hsel.
  destruct (same_session_state _ _ Hsame) as (Hst & Ht).
  unfold run_main. rewrite !main_stages.
  rewrite Hlo, Hhi, Hlo', Hhi', Hst, Ht.
  unfold sample_of_run in Hsel. unfold bind.
  destruct (search_taxid_returns L W (in_taxid inp) (state_before_search inp))
    as (count_ & s1 & Hs).
  rewrite Hs in *.
  destruct (truthy count_) eqn:T.
  - rewrite !main_after_search_truthy by exact T. unfold bind.
    destruct (fetch_records_returns W 0 20
                (with_output s1
                   [Print (newline +:+ "Fetching sample records...")]))
      as (rs & s2 & Hf & _).
    rewrite Hf in *. by rewrite Hsel.
  - by rewrite !main_after_search_falsy by exact T.
Qed.

(** The remote calls of a run are those made up to the end of the fetch,
    whatever lengths were typed. *)
Lemma run_main_remote_calls (L : Lib) (W : Entrez) (inp : Inputs)
    (lo hi : Z) :
  py_int L (in_min_length inp) = Return lo ->
  py_int L (in_max_length inp) = Return hi ->
  remote_calls (snd (run_main L W inp))
    = remote_calls (trace (state_before_report L W inp)).
Proof.
  intros Hlo Hhi.
  unfold run_main, state_before_report. rewrite main_stages, Hlo, Hhi.
  unfold bind.
  destruct (search_taxid_returns L W (in_taxid inp) (state_before_search inp))
    as (count_ & s1 & Hs).
  rewrite Hs.
  destruct (truthy count_) eqn:T.
  - rewrite main_after_search_truthy by exact T. unfold bind.
    destruct (fetch_records_returns W 0 20
                (with_output s1
                   [Print (newline +:+ "Fetching sample records...")]))
      as (rs & s2 & Hf & _).
    rewrite Hf. cbn [snd].
    destruct (length_filter lo hi rs) as [|r kept].
    + rewrite report_empty. cbn [snd with_output trace].
      rewrite remote_calls_app. apply app_nil_r.
    + rewrite report_nonempty. cbn [snd with_output trace].
      rewrite remote_calls_app. apply app_nil_r.
  - rewrite main_after_search_falsy by exact T.
    cbn [snd with_output trace]. rewrite remote_calls_app. apply app_nil_r.
Qed.

Lemma state_before_report_same (L : Lib) (W : Entrez) (inp inp' : Inputs) :
  same_session_inputs inp inp' ->
  state_before_report L W inp' = state_before_report L W inp.
Proof.
  intros Hsame. destruct (same_session_state _ _ Hsame) as (Hst & Ht).
  unfold state_before_report. by rewrite Hst, Ht.
Qed.

(** C6 (as amended). When the minimum exceeds the maximum the criteria are
    neither rejected nor flagged, before the filter runs or after.  The
    filter keeps no record of any input.  The run makes the remote calls,
    search and batch fetch, of a run on any other two lengths.  When a fetch
    is made the line "Filtered to 0 records within length range." is
    printed.  And the outcome and the whole output of the run are those of a
    run on any other two lengths that none of the fetched records meets,
    proper ranges included: nothing in a run tells an inverted range from a
    proper range that selects nothing. *)
Theorem C6_inverted_range_runs_unchecked (L : Lib) (W : Entrez)
    (inp : Inputs) (lo hi : Z) :
  py_int L (in_min_length inp) = Return lo ->
  py_int L (in_max_length inp) = Return hi ->
  hi < lo ->
  (forall R, length_filter lo hi R = []) /\
  (fetch_calls (snd (run_main L W inp)) <> [] ->
   Print "Filtered to 0 records within length range."
     ∈ snd (run_main L W inp)) /\
  (forall inp' lo' hi',
     same_session_inputs inp inp' ->
     py_int L (in_min_length inp') = Return lo' ->
     py_int L (in_max_length inp') = Return hi' ->
     remote_calls (snd (run_main L W inp))
       = remote_calls (snd (run_main L W inp')) /\
     (length_filter lo' hi' (sample_of_run L W inp) = [] ->
      run_main L W inp = run_main L W inp')).
Proof.
  intros Hlo Hhi Hinv.
  split; [intros R; by apply length_filter_inverted|]. split.
  - run_paths L W inp; try congruence.
    + intros Hcalls. exfalso. apply Hcalls. split_output.
      rewrite !fetch_calls_app, Hfc. reflexivity.
    + intros _. apply elem_of_app. right. apply list_elem_of_here.
    + exfalso.
      match goal with
      | H : length_filter _ _ _ <> [] |- _ => apply H
      end.
      replace lo0 with lo by congruence. replace hi0 with hi by congruence.
      by apply length_filter_inverted.
  - intros inp' lo' hi' Hsame Hlo' Hhi'. split.
    + rewrite (run_main_remote_calls L W inp lo hi Hlo Hhi).
      rewrite (run_main_remote_calls L W inp' lo' hi' Hlo' Hhi').
      by rewrite (state_before_report_same L W inp inp' Hsame).
    + intros Hnone.
      apply (run_main_same_selection L W inp inp' lo hi lo' hi');
        try assumption.
      rewrite Hnone. by apply length_filter_inverted.
Qed.

Lemma C6_inverted_range_unchecked_witness :
  let W := service_ok "3" in
  let inverted := example_inputs "20" "10" in
  (forall R, length_filter 20 10 R = []) /\
  (fetch_calls (snd (run_main example_lib W inverted)) <> [] ->
   Print "Filtered to 0 records within length range."
     ∈ snd (run_main example_lib W inverted)) /\
  (forall inp' lo' hi',
     same_session_inputs inverted inp' ->
     int_decimal (in_min_length inp') = Return lo' ->
     int_decimal (in_max_length inp') = Return hi' ->
     remote_calls (snd (run_main example_lib W inverted))
       = remote_calls (snd (run_main example_lib W inp')) /\
     (length_filter lo' hi' (sample_of_run example_lib W inverted) = [] ->
      run_main example_lib W inverted = run_main example_lib W inp')).
Proof.
  apply (C6_inverted_range_runs_unchecked example_lib (service_ok "3")
           (example_inputs "20" "10") 20 10).
  - reflexivity.
  - reflexivity.
  - lia.
Defined.

(** * A failing fetch *)

(** X17. A failure of the batch fetch stays inside [fetch_records].  The
    method never raises: in every state it returns a list.  When the remote
    fetch fails with [e] (transport or parse), the result is the empty list
    and the failure is signalled by the line "Error fetching records: "
    followed by [str(e)]; the instance is left as it was. *)
Theorem fetch_records_contains_failure (W : Entrez) (w q : string)
    (e : exn) :
  (forall start max_records s,
     exists rs s', fetch_records W start max_records s = (Return rs, s')) /\
  (forall start max_records s,
     webenv (self s) = Some w -> query_key (self s) = Some q ->
     efetch_nucleotide W (calls s) start (Z.min max_records 500) w q = Raise e ->
     fetch_records W start max_records s =
       (Return [],
        mkState (self s) (config s) (S (calls s))
          (trace s ++
             [Entrez_efetch_nucleotide start (Z.min max_records 500) w q;
              Print ("Error fetching records: " +:+ str e)]))).
Proof.
  split.
  - intros start max_records s.
    destruct (fetch_records_returns W start max_records s) as (rs & s' & H & _).
    eauto.
  - intros start max_records s Hw Hq Hfail.
    rewrite (fetch_records_session _ _ _ _ w q Hw Hq). cbn. by rewrite Hfail.
Qed.

Lemma fetch_records_contains_failure_witness :
  let s := state_after_search in
  fetch_records service_fetch_down 40 1000 s =
    (Return [],
     mkState (self s) (config s) (S (calls s))
       (trace s ++
          [Entrez_efetch_nucleotide 40 (Z.min 1000 500) "MCID_1" "1";
           Print ("Error fetching records: "
                  +:+ str (PyExc "URLError" "timed out"))])).
Proof.
  apply (fetch_records_contains_failure service_fetch_down "MCID_1" "1"
           (PyExc "URLError" "timed out")); reflexivity.
Defined.

Lemma elem_of_fetch_calls (e : event) (l : list event) :
  e ∈ l -> is_fetch_call e = true -> e ∈ fetch_calls l.
Proof.
  intros Hin He. apply list_elem_of_In. apply List.filter_In.
  split; [by apply list_elem_of_In|exact He].
Qed.

(** In a run that has searched and fetched, a failed fetch leaves no
    sample, and the output ends with the call and the error line. *)
Lemma failed_fetch_in_run (L : Lib) (W : Entrez) (inp : Inputs) (c : Z)
    (s1 s2 : State) (sample_records : list SeqRecord) (w q : string)
    (e : exn) :
  search_taxid L W (in_taxid inp) (state_before_search inp)
    = (Return (Some c), s1) ->
  fetch_records W 0 20
    (with_output s1 [Print (newline +:+ "Fetching sample records...")])
    = (Return sample_records, s2) ->
  Entrez_efetch_nucleotide 0 20 w q ∈ trace s2 ->
  efetch_nucleotide W 2 0 20 w q = Raise e ->
  sample_records = [] /\
  exists before,
    trace s2 =
      before ++ [Entrez_efetch_nucleotide 0 20 w q;
                 Print ("Error fetching records: " +:+ str e)] /\
    chart_events before = [] /\ artifacts before = [].
Proof.
  intros Hs Hf Hin Hfail.
  destruct (search_taxid_path L W (in_taxid inp) (state_before_search inp))
    as (result & s1' & Hpath & P).
  rewrite Hs in Hpath. injection Hpath as <- <-.
  inversion P as [| | | | |name reply ? w' q']; subst.
  rewrite (fetch_records_session W 0 20 _ w' q') in Hf by reflexivity.
  cbv zeta in Hf. change (Z.min 20 500) with 20 in Hf.
  cbn [with_output calls self config trace state_before_search] in Hf.
  assert (Hwq : w' = w /\ q' = q).
  { apply elem_of_fetch_calls in Hin; [|reflexivity].
    destruct (efetch_nucleotide W 2 0 20 w' q'); injection Hf as _ <-;
      cbn in Hin; apply list_elem_of_singleton in Hin;
      by injection Hin as -> ->. }
  destruct Hwq as [-> ->]. rewrite Hfail in Hf. injection Hf as <- <-.
  split; [reflexivity|].
  exists (prompts ++
            [ search_line (in_taxid inp); Entrez_efetch_taxonomy (in_taxid inp);
              organism_line name (in_taxid inp);
              Entrez_esearch (search_term (in_taxid inp)); found_line c;
              Print (newline +:+ "Fetching sample records...") ]).
  repeat split; reflexivity.
Qed.

(** X18. A run whose batch fetch fails does not end normally.  In every
    run of [main] whose batch fetch, issued with the tokens [w] and [q],
    fails with [e]: the call is followed by the error line and by the line
    "Filtered to 0 records within length range."; an archive, if one is
    written, holds no record; no plotting call is made; and the run does
    not return. *)
Theorem failed_fetch_run_aborts (L : Lib) (W : Entrez) (inp : Inputs)
    (w q : string) (e : exn) :
  Entrez_efetch_nucleotide 0 20 w q ∈ snd (run_main L W inp) ->
  efetch_nucleotide W 2 0 20 w q = Raise e ->
  fst (run_main L W inp) <> Return tt /\
  (exists before after,
     snd (run_main L W inp) =
       before ++
       [ Entrez_efetch_nucleotide 0 20 w q;
         Print ("Error fetching records: " +:+ str e);
         Print "Filtered to 0 records within length range." ] ++ after) /\
  (forall file rs, SeqIO_write file rs ∈ snd (run_main L W inp) -> rs = []) /\
  chart_events (snd (run_main L W inp)) = [].
Proof.
  intros Hin Hfail. revert Hin. run_paths L W inp; intros Hin.
  - elem_cases Hin.
  - elem_cases Hin.
  - exfalso. split_output.
    apply elem_of_fetch_calls in Hin; [|reflexivity].
    rewrite !fetch_calls_app, Hfc in Hin. elem_cases Hin.
  - apply elem_of_app in Hin as [Hin|Hin]; [|elem_cases Hin].
    match goal with
    | Hs : search_taxid _ _ _ _ = _, Hf : fetch_records _ _ _ _ = _ |- _ =>
        destruct (failed_fetch_in_run _ _ _ _ _ _ _ _ _ _ Hs Hf Hin Hfail)
          as (_ & before & Ht & Hc & Ha)
    end.
    split; [discriminate|]. split; [|split].
    + exists before. eexists. rewrite Ht, <- app_assoc.
      unfold report_events_empty. reflexivity.
    + intros file rs Hw. apply elem_of_app in Hw as [Hw|Hw].
      * exfalso. revert Hw. rewrite Ht.
        apply (filtered_out_not_elem_of is_artifact); [|reflexivity].
        change (artifacts (before ++
                  [Entrez_efetch_nucleotide 0 20 w q;
                   Print ("Error fetching records: " +:+ str e)]) = []).
        rewrite artifacts_app, Ha. reflexivity.
      * elem_cases Hw. by injection Hw as _ ->.
    + rewrite Ht, !chart_events_app, Hc. reflexivity.
  - exfalso.
    apply elem_of_app in Hin as [Hin|Hin]; [|elem_cases Hin].
    match goal with
    | Hs : search_taxid _ _ _ _ = _, Hf : fetch_records _ _ _ _ = _,
      Hne : length_filter _ _ _ <> [] |- _ =>
        destruct (failed_fetch_in_run _ _ _ _ _ _ _ _ _ _ Hs Hf Hin Hfail)
          as (-> & _); by apply Hne
    end.
Qed.

Lemma failed_fetch_run_aborts_witness :
  let run := run_main example_lib service_fetch_down
               (example_inputs "10" "20") in
  fst run <> Return tt /\
  (exists before after,
     snd run =
       before ++
       [ Entrez_efetch_nucleotide 0 20 "MCID_1" "1";
         Print ("Error fetching records: "
                +:+ str (PyExc "URLError" "timed out"));
         Print "Filtered to 0 records within length range." ] ++ after) /\
  (forall file rs, SeqIO_write file rs ∈ snd run -> rs = []) /\
  chart_events (snd run) = [].
Proof.
  apply (failed_fetch_run_aborts example_lib service_fetch_down
           (example_inputs "10" "20") "MCID_1" "1"
           (PyExc "URLError" "timed out")).
  - vm_compute. elem_search.
  - reflexivity.
Defined.

(** C4 (the code departs from it). The failure of the batch fetch is
    contained in [fetch_records], which returns the empty list, but the run
    does not go on to a reported outcome.  Here the identifier 9606 resolves
    and the search finds 3 records, the lengths typed are 10 and 20, and the
    batch fetch fails with a transport error.  The run prints the error
    line and "Filtered to 0 records within length range.", writes an
    archive and a CSV table without records, makes no plotting call, and
    ends with the uncaught [KeyError: 'Length'] of [sort_values] on the
    table without columns. *)
Theorem C4_failed_fetch_then_KeyError :
  let W := service_fetch_down in
  let run := run_main example_lib W (example_inputs "10" "20") in
  efetch_nucleotide W 2 0 20 "MCID_1" "1"
    = Raise (PyExc "URLError" "timed out") /\
  fst (fetch_records W 0 20 state_after_search) = Return [] /\
  fst run = Raise (PyExc "KeyError" "'Length'") /\
  snd run =
    prompts ++
    [ Print "Searching for records with taxID: 9606";
      Entrez_efetch_taxonomy "9606";
      Print "Organism: Homo sapiens (TaxID: 9606)";
      Entrez_esearch "txid9606[Organism]";
      Print "Found 3 records";
      Print (newline +:+ "Fetching sample records...");
      Entrez_efetch_nucleotide 0 20 "MCID_1" "1";
      Print "Error fetching records: timed out";
      Print "Filtered to 0 records within length range.";
      SeqIO_write "taxid_9606_sample.gb" [];
      Print "Saved filtered sample records to taxid_9606_sample.gb";
      to_csv "taxid_9606_report.csv" (mkDataFrame [] []);
      Print "Saved CSV report to taxid_9606_report.csv" ] /\
  chart_events (snd run) = [].
Proof. vm_compute. repeat split. Qed.

(** * The order of the files and the exceptions of [main] *)

(** Where an event occurs in a list that holds it once. *)
Lemma split_at_only (P : event -> Prop) (l1 l2 k1 k2 : list event)
    (x y : event) :
  Forall (fun e => ~ P e) l1 -> Forall (fun e => ~ P e) l2 -> P y ->
  l1 ++ x :: l2 = k1 ++ y :: k2 ->
  k1 = l1 /\ y = x /\ k2 = l2.
Proof.
  intros H1 H2 Hy. revert k1.
  induction H1 as [|a l1 Ha _ IH]; intros [|b k1] Heq;
    injection Heq as Hhead Htail.
  - by subst.
  - exfalso. subst l2. apply Forall_app in H2 as [_ H2].
    apply Forall_cons in H2 as [H2 _]. by apply H2.
  - exfalso. subst a. by apply Ha.
  - destruct (IH k1 Htail) as (-> & -> & ->). by subst.
Qed.

Lemma chart_free_not_savefig (l : list event) :
  chart_events l = [] -> Forall (fun e => ~ is_savefig e) l.
Proof.
  intros Hc. apply Forall_forall. intros e Hin [file ->]. revert Hin.
  by apply (filtered_out_not_elem_of is_chart_event).
Qed.

(** X15. The chart comes last and under names made from the identifier as
    typed.  Wherever [savefig] occurs in the output of a run, its file is
    [taxid_<taxid>_lengths.png], and earlier in that run the archive
    [taxid_<taxid>_sample.gb] and the table [taxid_<taxid>_report.csv] have
    been written, from the same records, of which there is at least one;
    no file is written after it. *)
Theorem chart_written_last (L : Lib) (W : Entrez) (inp : Inputs)
    (before after : list event) (file : string) :
  let taxid := in_taxid inp in
  snd (run_main L W inp) = before ++ plt_savefig file :: after ->
  file = "taxid_" +:+ taxid +:+ "_lengths.png" /\
  artifacts after = [] /\
  exists rs,
    rs <> [] /\
    SeqIO_write ("taxid_" +:+ taxid +:+ "_sample.gb") rs ∈ before /\
    to_csv ("taxid_" +:+ taxid +:+ "_report.csv")
      (mkDataFrame ["Accession"; "Length"; "Description"]
         (map report_row rs)) ∈ before.
Proof.
  cbv zeta. intros Hsplit.
  assert (Hin : plt_savefig file ∈ snd (run_main L W inp)).
  { rewrite Hsplit. apply elem_of_app. right. apply list_elem_of_here. }
  revert Hsplit Hin. run_paths L W inp; intros Hsplit Hin.
  - elem_cases Hin.
  - elem_cases Hin.
  - exfalso. split_output. revert Hin.
    apply no_report_elem_of; auto.
  - exfalso. split_output.
    apply report_stage_elem_of in Hin; auto.
    elem_cases Hin.
  - split_output.
    unfold report_events in Hsplit. cbv zeta in Hsplit.
    match type of Hsplit with
    | ?A ++ ?e1 :: ?e2 :: ?e3 :: ?e4 :: ?e5 :: ?e6 :: ?e7 :: ?e8 :: ?e9
         :: ?e10 :: ?e11 :: ?e12 :: ?e13 :: ?tail = _ =>
        change (A ++ e1 :: e2 :: e3 :: e4 :: e5 :: e6 :: e7 :: e8 :: e9
                  :: e10 :: e11 :: e12 :: e13 :: tail)
          with (A ++ [e1; e2; e3; e4; e5; e6; e7; e8; e9; e10; e11; e12]
                  ++ e13 :: tail) in Hsplit;
        rewrite app_assoc in Hsplit;
        apply (split_at_only is_savefig) in Hsplit as (-> & Hfile & ->)
    end.
    + injection Hfile as ->. split; [reflexivity|]. split; [reflexivity|].
      eexists. split; [eassumption|].
      split; apply elem_of_app; right; elem_search.
    + apply Forall_app. split.
      * apply chart_free_not_savefig. rewrite !chart_events_app, Hc.
        reflexivity.
      * repeat first [ apply Forall_nil_2 | apply Forall_cons_2 ];
          intros [f Hf]; discriminate Hf.
    + repeat first [ apply Forall_nil_2 | apply Forall_cons_2 ];
        intros [f Hf]; discriminate Hf.
    + by exists file.
Qed.

Lemma chart_written_last_witness :
  let run := run_main example_lib (service_ok "3") (example_inputs "10" "40") in
  "taxid_9606_lengths.png" = "taxid_" +:+ "9606" +:+ "_lengths.png" /\
  artifacts (drop 25 (snd run)) = [] /\
  exists rs,
    rs <> [] /\
    SeqIO_write ("taxid_" +:+ "9606" +:+ "_sample.gb") rs
      ∈ take 24 (snd run) /\
    to_csv ("taxid_" +:+ "9606" +:+ "_report.csv")
      (mkDataFrame ["Accession"; "Length"; "Description"]
         (map report_row rs)) ∈ take 24 (snd run).
Proof.
  apply (chart_written_last example_lib (service_ok "3")
           (example_inputs "10" "40")
           (take 24 (snd (run_main example_lib (service_ok "3")
                            (example_inputs "10" "40"))))
           (drop 25 (snd (run_main example_lib (service_ok "3")
                            (example_inputs "10" "40"))))
           "taxid_9606_lengths.png").
  vm_compute. reflexivity.
Defined.


